(** * The data-science command registry

    A shallow embedding of
    [src/client/datascience/commands/commandRegistry.ts]: the class
    [CommandRegistry], the commands it registers with the host and the
    handler method behind each of them.

    The handlers only talk to injected collaborators.  A handler is
    therefore modelled as a function from the state of the collaborators
    (what the lookups answer, how the promises they hand out settle) to
    the list of collaborator calls the handler issues and the way it
    completes. *)

From stdpp Require Import base strings list gmap.
From Stdlib Require Import ZArith.

Local Open Scope Z_scope.
Local Open Scope string_scope.
Local Open Scope list_scope.

(** ** Values of the host API

    Only the members the registry reads are kept.  Line and column
    numbers are JavaScript numbers that the host keeps integral. *)

Module Uri.
Inductive t := parse (value : string).
End Uri.

Module Position.
Record t := mk { line : Z; character : Z }.
End Position.

Module Range.
Record t := mk { start : Position.t; end_ : Position.t }.
(** [new Range(startLine, startChar, endLine, endChar)]: the host's
    constructor is not part of the file, so the expression is kept as
    written. *)
Inductive constructed :=
  new (startLine startCharacter endLine endCharacter : Z).
End Range.

Module Selection.
Record t := mk { anchor : Position.t; start : Position.t }.
End Selection.

Module TextDocument.
(** [ident] stands for the identity of the document object. *)
Record t := mk { fileName : string; ident : nat }.
End TextDocument.

Module TextEditor.
Record t := mk {
  document : option TextDocument.t;
  selection : option Selection.t
}.
End TextEditor.

Module CodeLens.
Record t := mk { range : Range.t }.
End CodeLens.

Module INotebookEditor.
Record t := mk { file : Uri.t; isUntitled : bool; isDirty : bool }.
End INotebookEditor.

Inductive ConfigurationTarget := Global | Workspace | WorkspaceFolder.

Record QuickPickOptions := {
  ignoreFocusOut : bool;
  matchOnDescription : bool;
  matchOnDetail : bool;
  placeHolder : string
}.

Record SaveDialogOptions := {
  defaultUri : option Uri.t;
  saveLabel : string;
  filters : list (string * list string)
}.

(** ** Constants imported by the file

    Their string values live in modules outside the file; they are kept
    as names. *)

Module Commands.
Inductive t :=
| RunAllCells | RunCell | RunCurrentCell | RunCurrentCellAdvance
| ExecSelectionInInteractiveWindow | RunAllCellsAbove | RunCellAndAllBelow
| RunAllCellsAbovePalette | RunCellAndAllBelowPalette | RunToLine
| RunFromLine | RunFileInInteractiveWindows | DebugFileInInteractiveWindows
| AddCellBelow | RunCurrentCellAndAddBelow | DebugCell | DebugStepOver
| DebugContinue | DebugStop | DebugCurrentCellPalette | CreateNewNotebook
| ViewJupyterOutput | ExportAsPythonScript | ExportToHTML | ExportToPDF
| Export | GatherQuality | EnableLoadingWidgetsFrom3rdPartySource.
End Commands.

Module coreCommands.
Inductive t := OpenStartPage.
End coreCommands.

(** A key of [ICommandNameArgumentTypeMapping]. *)
Inductive CommandName :=
| DataScienceCommand (c : Commands.t)
| CoreCommand (c : coreCommands.t).

Coercion DataScienceCommand : Commands.t >-> CommandName.
Coercion CoreCommand : coreCommands.t >-> CommandName.

Module Telemetry.
Inductive t :=
| DebugStepOver | DebugStop | DebugContinue | AddCellBelow
| GatherQualityReport.
End Telemetry.

(** The localized strings the file asks [DataScience] for. *)
Module DataScience.
Inductive key :=
| documentMismatch
| loadThirdPartyWidgetScriptsPostEnabled
| exportSaveFileYes
| exportSaveFileCancel
| exportSaveFilePrompt.
End DataScience.

(** ** Errors and promises *)

Inductive Error :=
| new_Error (template : string) (arguments : list string)
    (* [new Error(template.format(...arguments))] *)
| TypeError
    (* a member read on [undefined] *)
| Failure (reason : string).
    (* the reason a collaborator rejected a promise with *)

(** A promise is represented by the way it settles. *)
Inductive Promise (A : Type) :=
| Fulfilled (value : A)
| Rejected (reason : Error).
Arguments Fulfilled {A} value.
Arguments Rejected {A} reason.

(** ** The methods of the class that are handed out as callbacks *)

Module Method.
Inductive t :=
| runAllCells | runCell | runCurrentCell | runCurrentCellAndAdvance
| runSelectionOrLine | runAllCellsAbove | runCellAndAllBelow
| runAllCellsAboveFromCursor | runCellAndAllBelowFromCursor | runToLine
| runFromLine | runFileInteractive | debugFileInteractive | addCellBelow
| runCurrentCellAndAddBelow | debugCell | debugStepOver | debugContinue
| debugStop | debugCurrentCellFromCursor | createNewNotebook
| viewJupyterOutput | exportAsPythonScript | exportToHTML | exportToPDF
| export | reportGatherQuality | enableLoadingWidgetScriptsFromThirdParty
| openStartPage.
End Method.

Module QuickPickItem.
Record t := mk { label : string; picked : bool }.
End QuickPickItem.

(** ** Collaborators *)

Module ICodeWatcher.
(** A code watcher is known by its identity. *)
Definition t := nat.
(** The methods the registry delegates to, with their arguments. *)
Inductive method :=
| runAllCells
| runFileInteractive
| debugFileInteractive
| runCell (range : Range.constructed)
| runAllCellsAbove (stopLine stopCharacter : Z)
| runCellAndAllBelow (startLine startCharacter : Z)
| runToLine (targetLine : Z)
| runFromLine (targetLine : Z)
| runCurrentCell
| runCurrentCellAndAdvance
| runSelectionOrLine (activeEditor : option TextEditor.t)
| debugCell (range : Range.constructed)
| addEmptyCellToBottom
| runCurrentCellAndAddBelow
| debugCurrentCell.
End ICodeWatcher.

(** The constructor injects [IApplicationShell] twice. *)
Inductive Shell := appShell | applicationShell.

(** Calls that ask a collaborator for a value. *)
Inductive Lookup :=
| dataScienceCodeLensProvider_getCodeWatcher (document : TextDocument.t)
| codeWatcher_getCodeLenses (watcher : ICodeWatcher.t)
| configService_getSettings (resource : option Uri.t).

(** Calls that delegate work to a collaborator. *)
Inductive Call :=
| onCodeWatcher (watcher : ICodeWatcher.t) (m : ICodeWatcher.method)
| commandManager_executeCommand (command : string)
| notebookEditorProvider_createNew
| startPage_open
| jupyterOutput_show (preserveFocus : bool)
| configService_updateSetting
    (setting : string) (value : list string) (resource : option Uri.t)
    (target : ConfigurationTarget)
| showInformationMessage (shell : Shell) (message : string) (items : list string)
| showQuickPick (shell : Shell) (items : list QuickPickItem.t)
    (options : QuickPickOptions)
| showSaveDialog (shell : Shell) (options : SaveDialogOptions)
| sendTelemetryEvent (eventName : Telemetry.t) (durationMs : option Z)
    (properties : list (string * string))
| env_openExternal (target : Uri.t).

Inductive Event :=
| Looked (l : Lookup)
| Called (c : Call)
| Captured (eventName : Telemetry.t).
    (* telemetry recorded by the [@captureTelemetry] decorator *)

Inductive DebugSession := debugSession (ident : nat).

(** The state of the collaborators, as far as a handler can observe it. *)
Record World := {
  textDocuments : list TextDocument.t;
  activeTextEditor : option TextEditor.t;
  watcherOf : TextDocument.t → option ICodeWatcher.t;
  codeLensesOf : ICodeWatcher.t → list CodeLens.t;
  activeDebugSession : option DebugSession;
  widgetScriptSources : list string;
  notebookActiveEditor : option INotebookEditor.t;
  localized : DataScience.key → string;
  (* how the promise returned by a delegated call settles *)
  settles : Call → Promise unit;
  (* what the user answers to a message with buttons, a quick pick, a
     save dialog *)
  answered : Call → Promise (option string);
  pickedItem : Call → Promise (option QuickPickItem.t);
  savedTo : Call → Promise (option Uri.t)
}.

(** ** The monad of handler code

    A run lists the calls issued while the method body executes
    ([sync]), says how the body completes, and lists the calls issued
    afterwards by promise callbacks the body installed ([deferred]). *)

Inductive Completion (A : Type) :=
| Normal (result : A)
| Throw (e : Error).
Arguments Normal {A} result.
Arguments Throw {A} e.

Record Run (A : Type) := mkRun {
  sync : list Event;
  completion : Completion A;
  deferred : list Event
}.
Arguments mkRun {A} sync completion deferred.
Arguments sync {A} r.
Arguments completion {A} r.
Arguments deferred {A} r.

Definition M (A : Type) : Type := World → Run A.

#[global] Instance M_ret : MRet M :=
  λ A a _, mkRun [] (Normal a) [].

#[global] Instance M_bind : MBind M :=
  λ A B f m w,
    match m w with
    | mkRun s (Normal a) d =>
        let 'mkRun s' c' d' := f a w in mkRun (s ++ s') c' (d ++ d')
    | mkRun s (Throw e) d => mkRun s (Throw e) d
    end.

Definition reads {A} (field : World → A) : M A :=
  λ w, mkRun [] (Normal (field w)) [].

Definition throw {A} (e : Error) : M A :=
  λ _, mkRun [] (Throw e) [].

Definition look {A} (l : Lookup) (answer : World → A) : M A :=
  λ w, mkRun [Looked l] (Normal (answer w)) [].

Definition call {A} (c : Call) (answer : World → Call → A) : M A :=
  λ w, mkRun [Called c] (Normal (answer w c)) [].

(** A call whose result the code drops. *)
Definition call_ (c : Call) : M unit :=
  λ w, mkRun [Called c] (Normal tt) [].

(** Everything a run issued, in order. *)
Definition trace {A} (r : Run A) : list Event := sync r ++ deferred r.

(** [p.then(cb)]: the callback runs after the current body, and only
    when [p] fulfils; the new promise settles as the callback completes. *)
Definition then_ {A B} (p : Promise A) (cb : A → M B) : M (Promise B) :=
  λ w,
    match p with
    | Fulfilled a =>
        let 'mkRun s c d := cb a w in
        mkRun []
          (Normal match c with
                  | Normal b => Fulfilled b
                  | Throw e => Rejected e
                  end)
          (s ++ d)
    | Rejected e => mkRun [] (Normal (Rejected e)) []
    end.

(** [p.then(noop, noop)] and [p.catch(noop)]: nothing is called. *)
Definition then_noop_noop {A} (p : Promise A) : Promise unit := Fulfilled tt.

Definition catch_noop (p : Promise unit) : Promise unit :=
  match p with
  | Fulfilled a => Fulfilled a
  | Rejected _ => Fulfilled tt
  end.

(** [await p].  No method of the file calls a collaborator after an
    [await], so what follows an [await] issues nothing. *)
Definition await {A} (p : Promise A) : M A :=
  match p with
  | Fulfilled a => mret a
  | Rejected e => throw e
  end.

(** The body of an [async] method: a throw rejects the returned promise,
    and returning a promise hands that promise on. *)
Definition async {A} (body : M (Promise A)) : M (Promise A) :=
  λ w,
    let 'mkRun s c d := body w in
    mkRun s
      (Normal match c with
              | Normal p => p
              | Throw e => Rejected e
              end)
      d.

(** ** Collaborator interfaces *)

Module IDataScienceCodeLensProvider.
Definition getCodeWatcher (document : TextDocument.t)
  : M (option ICodeWatcher.t) :=
  look (dataScienceCodeLensProvider_getCodeWatcher document)
       (λ w, watcherOf w document).
End IDataScienceCodeLensProvider.

(** A delegated code-watcher method; it returns a promise. *)
Definition delegate (watcher : ICodeWatcher.t) (m : ICodeWatcher.method)
  : M (Promise unit) :=
  call (onCodeWatcher watcher m) settles.

(** Modelled from the spec: the decorator [captureTelemetry] is
    imported from [../../telemetry], which is not among the sources; the
    spec lists telemetry emission among the collaborator interfaces of
    the handlers.  The decorated method runs unchanged, and one
    telemetry event of the given name is recorded once it is over. *)
Definition captureTelemetry {A} (eventName : Telemetry.t) (method : M A)
  : M A :=
  λ w,
    let 'mkRun s c d := method w in mkRun s c (d ++ [Captured eventName]).

(** [Array.prototype.find] with a callback that may throw. *)
Fixpoint find_ {A} (p : A → M bool) (l : list A) : M (option A) :=
  match l with
  | [] => mret None
  | x :: l' => b ← p x; if b : bool then mret (Some x) else find_ p l'
  end.

(** [interface IExportQuickPickItem extends QuickPickItem { handler(): void }] *)
Record IExportQuickPickItem := {
  label : string;
  picked : bool;
  handler : M unit
}.

Definition asQuickPickItem (item : IExportQuickPickItem) : QuickPickItem.t :=
  QuickPickItem.mk (label item) (picked item).

(** ** Registration and disposal

    The constructor, [register] and [dispose] change the object's
    [disposables] array and talk to the command manager, to the three
    injected sub-commands and to the optional command listeners. *)

Inductive IDisposable :=
| serverSelectedCommand
| kernelSwitcherCommand
| registration (n : nat).
    (* the disposable the command manager handed out for its [n]-th
       registration; every call of [registerCommand] is taken to return
       a new object *)

#[global] Instance IDisposable_eq_dec : EqDecision IDisposable.
Proof. solve_decision. Defined.

Inductive IDataScienceCommandListener := commandListener (ident : nat).

Inductive Effect :=
| commandLineCommand_register
| serverSelectedCommand_register
| kernelSwitcherCommand_register
| commandManager_registerCommand
    (command : CommandName) (callback : Method.t) (returned : IDisposable)
| listener_register (listener : IDataScienceCommandListener)
| disposable_dispose (d : IDisposable).

Record State := {
  (* private readonly disposables: IDisposable[] *)
  disposables : list IDisposable;
  (* private commandListeners: IDataScienceCommandListener[] | undefined *)
  commandListeners : option (list IDataScienceCommandListener);
  (* registrations the command manager has accepted so far *)
  registrations : nat
}.

Definition L (A : Type) : Type := State → A * State * list Effect.

#[global] Instance L_ret : MRet L := λ A a st, (a, st, []).

#[global] Instance L_bind : MBind L :=
  λ A B f m st,
    let '(a, st1, effects1) := m st in
    let '(b, st2, effects2) := f a st1 in
    (b, st2, effects1 ++ effects2).

Definition gets {A} (field : State → A) : L A := λ st, (field st, st, []).

Definition effect (e : Effect) : L unit := λ st, (tt, st, [e]).

(** [this.disposables.push(d)] *)
Definition push (d : IDisposable) : L unit :=
  λ st,
    (tt,
     {| disposables := disposables st ++ [d];
        commandListeners := commandListeners st;
        registrations := registrations st |},
     []).

(** [Array.prototype.forEach] *)
Fixpoint forEach {A} (l : list A) (f : A → L unit) : L unit :=
  match l with
  | [] => mret tt
  | x :: l' => f x;; forEach l' f
  end.

Module ICommandManager.
Definition registerCommand (command : CommandName) (callback : Method.t)
  : L IDisposable :=
  λ st,
    let returned := registration (registrations st) in
    (returned,
     {| disposables := disposables st;
        commandListeners := commandListeners st;
        registrations := S (registrations st) |},
     [commandManager_registerCommand command callback returned]).
End ICommandManager.

(** ** The class *)

Module CommandRegistry.

(** The object as the constructor leaves it. *)
Definition constructor
    (commandListeners : option (list IDataScienceCommandListener))
    (registrations : nat) : State :=
  let fresh :=
    {| disposables := []; commandListeners := commandListeners;
       registrations := registrations |} in
  snd (fst ((push serverSelectedCommand;; push kernelSwitcherCommand) fresh)).

Definition registerCommand (command : CommandName) (callback : Method.t)
  : L unit :=
  disposable ← ICommandManager.registerCommand command callback;
  push disposable.

Definition register : L unit :=
  effect commandLineCommand_register;;
  effect serverSelectedCommand_register;;
  effect kernelSwitcherCommand_register;;
  registerCommand Commands.RunAllCells Method.runAllCells;;
  registerCommand Commands.RunCell Method.runCell;;
  registerCommand Commands.RunCurrentCell Method.runCurrentCell;;
  registerCommand Commands.RunCurrentCellAdvance
    Method.runCurrentCellAndAdvance;;
  registerCommand Commands.ExecSelectionInInteractiveWindow
    Method.runSelectionOrLine;;
  registerCommand Commands.RunAllCellsAbove Method.runAllCellsAbove;;
  registerCommand Commands.RunCellAndAllBelow Method.runCellAndAllBelow;;
  registerCommand Commands.RunAllCellsAbovePalette
    Method.runAllCellsAboveFromCursor;;
  registerCommand Commands.RunCellAndAllBelowPalette
    Method.runCellAndAllBelowFromCursor;;
  registerCommand Commands.RunToLine Method.runToLine;;
  registerCommand Commands.RunFromLine Method.runFromLine;;
  registerCommand Commands.RunFileInInteractiveWindows
    Method.runFileInteractive;;
  registerCommand Commands.DebugFileInInteractiveWindows
    Method.debugFileInteractive;;
  registerCommand Commands.AddCellBelow Method.addCellBelow;;
  registerCommand Commands.RunCurrentCellAndAddBelow
    Method.runCurrentCellAndAddBelow;;
  registerCommand Commands.DebugCell Method.debugCell;;
  registerCommand Commands.DebugStepOver Method.debugStepOver;;
  registerCommand Commands.DebugContinue Method.debugContinue;;
  registerCommand Commands.DebugStop Method.debugStop;;
  registerCommand Commands.DebugCurrentCellPalette
    Method.debugCurrentCellFromCursor;;
  registerCommand Commands.CreateNewNotebook Method.createNewNotebook;;
  registerCommand Commands.ViewJupyterOutput Method.viewJupyterOutput;;
  registerCommand Commands.ExportAsPythonScript
    Method.exportAsPythonScript;;
  registerCommand Commands.ExportToHTML Method.exportToHTML;;
  registerCommand Commands.ExportToPDF Method.exportToPDF;;
  registerCommand Commands.Export Method.export;;
  registerCommand Commands.GatherQuality Method.reportGatherQuality;;
  registerCommand Commands.EnableLoadingWidgetsFrom3rdPartySource
    Method.enableLoadingWidgetScriptsFromThirdParty;;
  registerCommand coreCommands.OpenStartPage Method.openStartPage;;
  listeners ← gets commandListeners;
  match listeners with
  | Some listeners =>
      forEach listeners (λ listener, effect (listener_register listener))
  | None => mret tt
  end.

Definition dispose : L unit :=
  all ← gets disposables;
  forEach all (λ d, effect (disposable_dispose d)).

Definition getCodeWatcher (file : string) : M (option ICodeWatcher.t) :=
  documents ← reads textDocuments;
  let possibleDocuments :=
    filter (λ d, TextDocument.fileName d = file) documents in
  match possibleDocuments with
  | [d] =>
      (* possibleDocuments.length === 1 *)
      IDataScienceCodeLensProvider.getCodeWatcher d
  | _ :: _ :: _ =>
      (* possibleDocuments.length > 1 *)
      template ← reads (λ w, localized w DataScience.documentMismatch);
      throw (new_Error template [file])
  | [] => mret None
  end.

(** Get our matching code watcher for the active document *)
Definition getCurrentCodeWatcher : M (option ICodeWatcher.t) :=
  activeEditor ← reads activeTextEditor;
  match activeEditor with
  | None => mret None
  | Some activeEditor =>
      match TextEditor.document activeEditor with
      | None => mret None
      | Some document => IDataScienceCodeLensProvider.getCodeWatcher document
      end
  end.

Definition getCurrentCodeLens : M (option CodeLens.t) :=
  activeEditor ← reads activeTextEditor;
  activeCodeWatcher ← getCurrentCodeWatcher;
  match activeEditor, activeCodeWatcher with
  | Some activeEditor, Some activeCodeWatcher =>
      lenses ← look (codeWatcher_getCodeLenses activeCodeWatcher)
                    (λ w, codeLensesOf w activeCodeWatcher);
      find_
        (λ c,
           match TextEditor.selection activeEditor with
           | None => throw TypeError
           | Some selection =>
               let anchorLine :=
                 Position.line (Selection.anchor selection) in
               mret
                 ((Position.line (Range.end_ (CodeLens.range c))
                   >=? anchorLine)%Z
                  && (Position.line (Range.start (CodeLens.range c))
                      <=? anchorLine)%Z)
           end)
        lenses
  | _, _ => mret None
  end.

Definition enableLoadingWidgetScriptsFromThirdParty : M unit :=
  sources ← look (configService_getSettings None) widgetScriptSources;
  if (0 <? length sources)%nat then mret tt
  else
    (* Update the setting and once updated, notify user to restart kernel. *)
    updated ← call (configService_updateSetting
                      "dataScience.widgetScriptSources"
                      ["jsdelivr.com"; "unpkg.com"] None Global) settles;
    notified ← then_ updated (λ _,
      message ← reads (λ w,
        localized w DataScience.loadThirdPartyWidgetScriptsPostEnabled);
      shown ← call (showInformationMessage appShell message []) answered;
      let _ := then_noop_noop shown in
      mret tt);
    let _ := catch_noop notified in
    mret tt.

Definition orElse (found : option ICodeWatcher.t)
    (other : M (option ICodeWatcher.t)) : M (option ICodeWatcher.t) :=
  match found with
  | Some _ => mret found
  | None => other
  end.

Definition runAllCells (file : string) : M (Promise unit) :=
  async (
    codeWatcher ← getCodeWatcher file;
    codeWatcher ← orElse codeWatcher getCurrentCodeWatcher;
    match codeWatcher with
    | Some codeWatcher => delegate codeWatcher ICodeWatcher.runAllCells
    | None => mret (Fulfilled tt)
    end).

Definition runFileInteractive (file : string) : M (Promise unit) :=
  async (
    codeWatcher ← getCodeWatcher file;
    codeWatcher ← orElse codeWatcher getCurrentCodeWatcher;
    match codeWatcher with
    | Some codeWatcher =>
        delegate codeWatcher ICodeWatcher.runFileInteractive
    | None => mret (Fulfilled tt)
    end).

Definition debugFileInteractive (file : string) : M (Promise unit) :=
  async (
    codeWatcher ← getCodeWatcher file;
    codeWatcher ← orElse codeWatcher getCurrentCodeWatcher;
    match codeWatcher with
    | Some codeWatcher =>
        delegate codeWatcher ICodeWatcher.debugFileInteractive
    | None => mret (Fulfilled tt)
    end).

Definition runCell (file : string)
    (startLine startChar endLine endChar : Z) : M (Promise unit) :=
  async (
    codeWatcher ← getCodeWatcher file;
    match codeWatcher with
    | Some codeWatcher =>
        delegate codeWatcher
          (ICodeWatcher.runCell
             (Range.new startLine startChar endLine endChar))
    | None => mret (Fulfilled tt)
    end).

(** [if (file)]: a string is truthy unless it is empty. *)
Definition truthy (file : string) : bool := bool_decide (file ≠ "").

Definition runAllCellsAbove (file : string) (stopLine stopCharacter : Z)
  : M (Promise unit) :=
  async (
    if truthy file then
      codeWatcher ← getCodeWatcher file;
      match codeWatcher with
      | Some codeWatcher =>
          delegate codeWatcher
            (ICodeWatcher.runAllCellsAbove stopLine stopCharacter)
      | None => mret (Fulfilled tt)
      end
    else mret (Fulfilled tt)).

Definition runCellAndAllBelow (file : string)
    (startLine startCharacter : Z) : M (Promise unit) :=
  async (
    if truthy file then
      codeWatcher ← getCodeWatcher file;
      match codeWatcher with
      | Some codeWatcher =>
          delegate codeWatcher
            (ICodeWatcher.runCellAndAllBelow startLine startCharacter)
      | None => mret (Fulfilled tt)
      end
    else mret (Fulfilled tt)).

Definition runToLine : M (Promise unit) :=
  async (
    activeCodeWatcher ← getCurrentCodeWatcher;
    textEditor ← reads activeTextEditor;
    match activeCodeWatcher, textEditor with
    | Some activeCodeWatcher, Some textEditor =>
        match TextEditor.selection textEditor with
        | Some selection =>
            delegate activeCodeWatcher
              (ICodeWatcher.runToLine
                 (Position.line (Selection.start selection)))
        | None => mret (Fulfilled tt)
        end
    | _, _ => mret (Fulfilled tt)
    end).

Definition runFromLine : M (Promise unit) :=
  async (
    activeCodeWatcher ← getCurrentCodeWatcher;
    textEditor ← reads activeTextEditor;
    match activeCodeWatcher, textEditor with
    | Some activeCodeWatcher, Some textEditor =>
        match TextEditor.selection textEditor with
        | Some selection =>
            delegate activeCodeWatcher
              (ICodeWatcher.runFromLine
                 (Position.line (Selection.start selection)))
        | None => mret (Fulfilled tt)
        end
    | _, _ => mret (Fulfilled tt)
    end).

Definition runCurrentCell : M (Promise unit) :=
  async (
    activeCodeWatcher ← getCurrentCodeWatcher;
    match activeCodeWatcher with
    | Some activeCodeWatcher =>
        delegate activeCodeWatcher ICodeWatcher.runCurrentCell
    | None => mret (Fulfilled tt)
    end).

Definition runCurrentCellAndAdvance : M (Promise unit) :=
  async (
    activeCodeWatcher ← getCurrentCodeWatcher;
    match activeCodeWatcher with
    | Some activeCodeWatcher =>
        delegate activeCodeWatcher ICodeWatcher.runCurrentCellAndAdvance
    | None => mret (Fulfilled tt)
    end).

Definition runSelectionOrLine : M (Promise unit) :=
  async (
    activeCodeWatcher ← getCurrentCodeWatcher;
    match activeCodeWatcher with
    | Some activeCodeWatcher =>
        activeTextEditor ← reads activeTextEditor;
        delegate activeCodeWatcher
          (ICodeWatcher.runSelectionOrLine activeTextEditor)
    | None => mret (Fulfilled tt)
    end).

Definition debugCell (file : string)
    (startLine startChar endLine endChar : Z) : M (Promise unit) :=
  async (
    if truthy file then
      codeWatcher ← getCodeWatcher file;
      match codeWatcher with
      | Some codeWatcher =>
          delegate codeWatcher
            (ICodeWatcher.debugCell
               (Range.new startLine startChar endLine endChar))
      | None => mret (Fulfilled tt)
      end
    else mret (Fulfilled tt)).

(** Make sure that we are in debug mode *)
Definition inDebugMode (command : string) : M (Promise unit) :=
  async (
    session ← reads activeDebugSession;
    match session with
    | Some _ =>
        call_ (commandManager_executeCommand command);;
        mret (Fulfilled tt)
    | None => mret (Fulfilled tt)
    end).

Definition debugStepOver : M (Promise unit) :=
  captureTelemetry Telemetry.DebugStepOver
    (inDebugMode "workbench.action.debug.stepOver").

Definition debugStop : M (Promise unit) :=
  captureTelemetry Telemetry.DebugStop
    (inDebugMode "workbench.action.debug.stop").

Definition debugContinue : M (Promise unit) :=
  captureTelemetry Telemetry.DebugContinue
    (inDebugMode "workbench.action.debug.continue").

Definition addCellBelow : M (Promise unit) :=
  captureTelemetry Telemetry.AddCellBelow (async (
    activeEditor ← reads activeTextEditor;
    activeCodeWatcher ← getCurrentCodeWatcher;
    match activeEditor, activeCodeWatcher with
    | Some _, Some activeCodeWatcher =>
        delegate activeCodeWatcher ICodeWatcher.addEmptyCellToBottom
    | _, _ => mret (Fulfilled tt)
    end)).

Definition runCurrentCellAndAddBelow : M (Promise unit) :=
  async (
    activeCodeWatcher ← getCurrentCodeWatcher;
    match activeCodeWatcher with
    | Some activeCodeWatcher =>
        delegate activeCodeWatcher ICodeWatcher.runCurrentCellAndAddBelow
    | None => mret (Fulfilled tt)
    end).

Definition runAllCellsAboveFromCursor : M (Promise unit) :=
  async (
    currentCodeLens ← getCurrentCodeLens;
    match currentCodeLens with
    | Some currentCodeLens =>
        activeCodeWatcher ← getCurrentCodeWatcher;
        match activeCodeWatcher with
        | Some activeCodeWatcher =>
            let start := Range.start (CodeLens.range currentCodeLens) in
            delegate activeCodeWatcher
              (ICodeWatcher.runAllCellsAbove
                 (Position.line start) (Position.character start))
        | None => mret (Fulfilled tt)
        end
    | None => mret (Fulfilled tt)
    end).

Definition runCellAndAllBelowFromCursor : M (Promise unit) :=
  async (
    currentCodeLens ← getCurrentCodeLens;
    match currentCodeLens with
    | Some currentCodeLens =>
        activeCodeWatcher ← getCurrentCodeWatcher;
        match activeCodeWatcher with
        | Some activeCodeWatcher =>
            let start := Range.start (CodeLens.range currentCodeLens) in
            delegate activeCodeWatcher
              (ICodeWatcher.runCellAndAllBelow
                 (Position.line start) (Position.character start))
        | None => mret (Fulfilled tt)
        end
    | None => mret (Fulfilled tt)
    end).

Definition debugCurrentCellFromCursor : M (Promise unit) :=
  async (
    currentCodeLens ← getCurrentCodeLens;
    match currentCodeLens with
    | Some _ =>
        activeCodeWatcher ← getCurrentCodeWatcher;
        match activeCodeWatcher with
        | Some activeCodeWatcher =>
            delegate activeCodeWatcher ICodeWatcher.debugCurrentCell
        | None => mret (Fulfilled tt)
        end
    | None => mret (Fulfilled tt)
    end).

Definition createNewNotebook : M (Promise unit) :=
  async (
    created ← call notebookEditorProvider_createNew settles;
    await created;;
    mret (Fulfilled tt)).

Definition openStartPage : M (Promise unit) :=
  async (
    opened ← call startPage_open settles;
    await opened;;
    mret (Fulfilled tt)).

Definition viewJupyterOutput : M unit :=
  call_ (jupyterOutput_show true).

Definition exportAsPythonScript : M unit := mret tt.

Definition exportToHTML : M unit := mret tt.

Definition exportToPDF : M unit := mret tt.

(** To add a new quick pick item simply enter the label, if it picked
    by default and add a handler for when it is selected *)
Definition getExportQuickPickItems : list IExportQuickPickItem :=
  [ {| label := "Python Script"; picked := true;
       handler := exportAsPythonScript |};
    {| label := "HTML"; picked := false; handler := exportToHTML |};
    {| label := "PDF"; picked := false; handler := exportToPDF |} ].

(** [for (const item of items) if (item.label === pickedItem.label) return item] *)
Fixpoint itemLabelled (wanted : string) (items : list IExportQuickPickItem)
  : option IExportQuickPickItem :=
  match items with
  | [] => None
  | item :: items' =>
      if bool_decide (label item = wanted) then Some item
      else itemLabelled wanted items'
  end.

Definition showExportQuickPick : M (Promise (option IExportQuickPickItem)) :=
  async (
    let items := getExportQuickPickItems in
    let options :=
      {| ignoreFocusOut := true; matchOnDescription := true;
         matchOnDetail := true; placeHolder := "Export As..." |} in
    picking ← call (showQuickPick applicationShell
                      (asQuickPickItem <$> items) options) pickedItem;
    pickedItem ← await picking;
    match pickedItem with
    | None => mret (Fulfilled None)
    | Some pickedItem =>
        mret (Fulfilled
                (itemLabelled (QuickPickItem.label pickedItem) items))
    end).

Definition getFileSaveLocation : M (option Uri.t) :=
  file ← reads (λ w, INotebookEditor.file <$> notebookActiveEditor w);
  let options :=
    {| defaultUri := file; saveLabel := "";
       filters := [("Juypter Notebooks", ["ipynb"])] |} in
  saving ← call (showSaveDialog applicationShell options) savedTo;
  _ ← then_ saving (λ uri, mret uri);
  mret None.

Definition verifySaved : M unit :=
  activeEditor ← reads notebookActiveEditor;
  if from_option INotebookEditor.isUntitled false activeEditor then
    (* save to temporary file, don't need to ask *)
    mret tt
  else if negb (from_option INotebookEditor.isDirty false activeEditor) then
    (* if notebook does not have unsaved changed *)
    mret tt
  else
    (* Ask user if they'd like to save *)
    yes ← reads (λ w, localized w DataScience.exportSaveFileYes);
    cancel ← reads (λ w, localized w DataScience.exportSaveFileCancel);
    prompt ← reads (λ w, localized w DataScience.exportSaveFilePrompt);
    asking ← call (showInformationMessage applicationShell prompt
                     [yes; cancel]) answered;
    _ ← then_ asking (λ choice,
      if bool_decide (choice = Some yes) then
        file ← getFileSaveLocation;
        mret tt
      else mret tt);
    mret tt.

Definition export : M unit :=
  (* shows the export quick pick menu *)
  shown ← showExportQuickPick;
  _ ← then_ shown (λ item,
    verifySaved;; (* make sure notebook file is saved *)
    match item with
    | Some item => handler item
    | None => mret tt
    end);
  mret tt.

Definition reportGatherQuality (val : string) : M unit :=
  call_ (sendTelemetryEvent Telemetry.GatherQualityReport None
           [("result", if bool_decide (val = "no") then "no" else "yes")]);;
  call_ (env_openExternal
           (Uri.parse ("https://aka.ms/gathersurvey?succeed=" +:+ val))).

End CommandRegistry.

(** ** Handlers as the host calls them

    The host applies a registered callback to the arguments of the
    command; [ICommandNameArgumentTypeMapping] types them. *)

Inductive Returned := void | promised (p : Promise unit).

Definition returning {A} (f : A → Returned) (m : M A) : M Returned :=
  a ← m; mret (f a).

Definition arguments (m : Method.t) : Type :=
  match m with
  | Method.runAllCells | Method.runFileInteractive
  | Method.debugFileInteractive | Method.reportGatherQuality => string
  | Method.runCell | Method.debugCell => string * Z * Z * Z * Z
  | Method.runAllCellsAbove | Method.runCellAndAllBelow => string * Z * Z
  | _ => unit
  end.

Definition body (m : Method.t) : arguments m → M Returned :=
  match m return arguments m → M Returned with
  | Method.runAllCells =>
      λ file, returning promised (CommandRegistry.runAllCells file)
  | Method.runCell =>
      λ '(file, startLine, startChar, endLine, endChar),
        returning promised
          (CommandRegistry.runCell file startLine startChar endLine endChar)
  | Method.runCurrentCell =>
      λ _, returning promised CommandRegistry.runCurrentCell
  | Method.runCurrentCellAndAdvance =>
      λ _, returning promised CommandRegistry.runCurrentCellAndAdvance
  | Method.runSelectionOrLine =>
      λ _, returning promised CommandRegistry.runSelectionOrLine
  | Method.runAllCellsAbove =>
      λ '(file, stopLine, stopCharacter),
        returning promised
          (CommandRegistry.runAllCellsAbove file stopLine stopCharacter)
  | Method.runCellAndAllBelow =>
      λ '(file, startLine, startCharacter),
        returning promised
          (CommandRegistry.runCellAndAllBelow file startLine startCharacter)
  | Method.runAllCellsAboveFromCursor =>
      λ _, returning promised CommandRegistry.runAllCellsAboveFromCursor
  | Method.runCellAndAllBelowFromCursor =>
      λ _, returning promised CommandRegistry.runCellAndAllBelowFromCursor
  | Method.runToLine => λ _, returning promised CommandRegistry.runToLine
  | Method.runFromLine => λ _, returning promised CommandRegistry.runFromLine
  | Method.runFileInteractive =>
      λ file, returning promised (CommandRegistry.runFileInteractive file)
  | Method.debugFileInteractive =>
      λ file, returning promised (CommandRegistry.debugFileInteractive file)
  | Method.addCellBelow =>
      λ _, returning promised CommandRegistry.addCellBelow
  | Method.runCurrentCellAndAddBelow =>
      λ _, returning promised CommandRegistry.runCurrentCellAndAddBelow
  | Method.debugCell =>
      λ '(file, startLine, startChar, endLine, endChar),
        returning promised
          (CommandRegistry.debugCell file startLine startChar endLine endChar)
  | Method.debugStepOver =>
      λ _, returning promised CommandRegistry.debugStepOver
  | Method.debugContinue =>
      λ _, returning promised CommandRegistry.debugContinue
  | Method.debugStop => λ _, returning promised CommandRegistry.debugStop
  | Method.debugCurrentCellFromCursor =>
      λ _, returning promised CommandRegistry.debugCurrentCellFromCursor
  | Method.createNewNotebook =>
      λ _, returning promised CommandRegistry.createNewNotebook
  | Method.viewJupyterOutput =>
      λ _, returning (λ _, void) CommandRegistry.viewJupyterOutput
  | Method.exportAsPythonScript =>
      λ _, returning (λ _, void) CommandRegistry.exportAsPythonScript
  | Method.exportToHTML =>
      λ _, returning (λ _, void) CommandRegistry.exportToHTML
  | Method.exportToPDF =>
      λ _, returning (λ _, void) CommandRegistry.exportToPDF
  | Method.export => λ _, returning (λ _, void) CommandRegistry.export
  | Method.reportGatherQuality =>
      λ val, returning (λ _, void) (CommandRegistry.reportGatherQuality val)
  | Method.enableLoadingWidgetScriptsFromThirdParty =>
      λ _, returning (λ _, void)
             CommandRegistry.enableLoadingWidgetScriptsFromThirdParty
  | Method.openStartPage =>
      λ _, returning promised CommandRegistry.openStartPage
  end.

(** ** Reading traces *)

(** The delegated calls of a trace, in order. *)
Definition calls (events : list Event) : list Call :=
  omap (λ e, match e with Called c => Some c | _ => None end) events.

Definition isLookup (e : Event) : bool :=
  match e with Looked _ => true | _ => false end.

Definition isCaptured (e : Event) : bool :=
  match e with Captured _ => true | _ => false end.

(** Lookups first, then at most one delegated call, then nothing but
    the telemetry the decorator records. *)
Fixpoint lookupsThenOneCall (events : list Event) : bool :=
  match events with
  | Looked _ :: events' => lookupsThenOneCall events'
  | Called _ :: events' => forallb isCaptured events'
  | _ => forallb isCaptured events
  end.

(** The commands handed to [commandManager.registerCommand], each with
    the callback it was given, in order. *)
Definition registered (effects : list Effect)
  : list (CommandName * Method.t) :=
  omap (λ e, match e with
             | commandManager_registerCommand command callback _ =>
                 Some (command, callback)
             | _ => None
             end) effects.

(** The disposables [commandManager.registerCommand] returned. *)
Definition handedOut (effects : list Effect) : list IDisposable :=
  omap (λ e, match e with
             | commandManager_registerCommand _ _ returned => Some returned
             | _ => None
             end) effects.

(** The disposables [dispose()] was called on. *)
Definition disposed (effects : list Effect) : list IDisposable :=
  omap (λ e, match e with
             | disposable_dispose d => Some d
             | _ => None
             end) effects.

(** ** The life of a registry object *)

Inductive Operation := callRegister | callDispose.

#[global] Instance Operation_eq_dec : EqDecision Operation.
Proof. solve_decision. Defined.

Definition perform (op : Operation) : L unit :=
  match op with
  | callRegister => CommandRegistry.register
  | callDispose => CommandRegistry.dispose
  end.

(** A registry is constructed and then used: the state it ends in and
    everything it did to its collaborators on the way. *)
Definition lifetime
    (listeners : option (list IDataScienceCommandListener))
    (registrations : nat) (ops : list Operation) : State * list Effect :=
  let '(_, st, effects) :=
    forEach ops perform (CommandRegistry.constructor listeners registrations)
  in (st, effects).

(** ** Settings

    Modelled from the spec: the configuration service behind
    [IConfigurationService.updateSetting] is not among the sources.  The
    settings are a map from setting names to values; an update that
    fulfils replaces the value of the setting it names, and no other
    call changes a setting. *)
Definition applied (w : World) (σ : gmap string (list string)) (e : Event)
  : gmap string (list string) :=
  match e with
  | Called (configService_updateSetting setting value resource target) =>
      match
        settles w (configService_updateSetting setting value resource target)
      with
      | Fulfilled _ => <[setting := value]> σ
      | Rejected _ => σ
      end
  | _ => σ
  end.

Definition settingsAfter (w : World) (events : list Event)
    (σ : gmap string (list string)) : gmap string (list string) :=
  foldl (applied w) σ events.

(** ** Sample states of the collaborators *)

Definition english (k : DataScience.key) : string :=
  match k with
  | DataScience.documentMismatch => "Cannot run cells in {0}"
  | DataScience.loadThirdPartyWidgetScriptsPostEnabled =>
      "Restart the kernel to load widgets"
  | DataScience.exportSaveFileYes => "Yes"
  | DataScience.exportSaveFileCancel => "Cancel"
  | DataScience.exportSaveFilePrompt => "Save before exporting?"
  end.

(** Nothing is open, nobody is debugging, every promise fulfils and the
    user dismisses every prompt. *)
Definition idle : World :=
  {| textDocuments := [];
     activeTextEditor := None;
     watcherOf := λ _, None;
     codeLensesOf := λ _, [];
     activeDebugSession := None;
     widgetScriptSources := [];
     notebookActiveEditor := None;
     localized := english;
     settles := λ _, Fulfilled tt;
     answered := λ _, Fulfilled None;
     pickedItem := λ _, Fulfilled None;
     savedTo := λ _, Fulfilled None |}.

(** An editor on [document], with the cursor at the top. *)
Definition editing (document : TextDocument.t) : TextEditor.t :=
  TextEditor.mk (Some document)
    (Some (Selection.mk (Position.mk 0 0) (Position.mk 0 0))).

(** [documents] are open, the editor shows [active], and every document
    has the code watcher numbered like it. *)
Definition opened (documents : list TextDocument.t)
    (active : option TextDocument.t) : World :=
  {| textDocuments := documents;
     activeTextEditor := editing <$> active;
     watcherOf := λ d, Some (TextDocument.ident d);
     codeLensesOf := λ _, [];
     activeDebugSession := None;
     widgetScriptSources := [];
     notebookActiveEditor := None;
     localized := english;
     settles := λ _, Fulfilled tt;
     answered := λ _, Fulfilled None;
     pickedItem := λ _, Fulfilled None;
     savedTo := λ _, Fulfilled None |}.

(** A dirty notebook is open; the user picks [HTML] in the quick pick,
    answers [Yes] to the save prompt and chooses a file in the dialog. *)
Definition exporting : World :=
  {| textDocuments := [];
     activeTextEditor := None;
     watcherOf := λ _, None;
     codeLensesOf := λ _, [];
     activeDebugSession := Some (debugSession 1);
     widgetScriptSources := ["jsdelivr.com"];
     notebookActiveEditor :=
       Some (INotebookEditor.mk (Uri.parse "file:///nb.ipynb") false true);
     localized := english;
     settles := λ _, Fulfilled tt;
     answered := λ _, Fulfilled (Some "Yes");
     pickedItem := λ _, Fulfilled (Some (QuickPickItem.mk "HTML" false));
     savedTo := λ _, Fulfilled (Some (Uri.parse "file:///out.ipynb")) |}.

(** A code lens over the lines [first] to [last]. *)
Definition lensOver (first last : Z) : CodeLens.t :=
  CodeLens.mk (Range.mk (Position.mk first 0) (Position.mk last 80)).

(** The editor shows [document] with the anchor of the selection on
    [anchorLine] and its start on [startLine]; the document's code
    watcher is [watcher] and has [lenses]. *)
Definition cursorOn (document : TextDocument.t) (watcher : ICodeWatcher.t)
    (anchorLine startLine : Z) (lenses : list CodeLens.t) : World :=
  {| textDocuments := [document];
     activeTextEditor :=
       Some (TextEditor.mk (Some document)
               (Some (Selection.mk (Position.mk anchorLine 0)
                                   (Position.mk startLine 0))));
     watcherOf := λ _, Some watcher;
     codeLensesOf := λ _, lenses;
     activeDebugSession := None;
     widgetScriptSources := [];
     notebookActiveEditor := None;
     localized := english;
     settles := λ _, Fulfilled tt;
     answered := λ _, Fulfilled None;
     pickedItem := λ _, Fulfilled None;
     savedTo := λ _, Fulfilled None |}.

(** Like [opened], but every promise a collaborator hands out rejects. *)
Definition failing (documents : list TextDocument.t)
    (active : option TextDocument.t) : World :=
  {| textDocuments := documents;
     activeTextEditor := editing <$> active;
     watcherOf := λ d, Some (TextDocument.ident d);
     codeLensesOf := λ _, [];
     activeDebugSession := None;
     widgetScriptSources := [];
     notebookActiveEditor := None;
     localized := english;
     settles := λ _, Rejected (Failure "offline");
     answered := λ _, Rejected (Failure "offline");
     pickedItem := λ _, Rejected (Failure "offline");
     savedTo := λ _, Rejected (Failure "offline") |}.

(** * Properties *)

(** ** Registration and disposal *)

Lemma forEach_effect {A} (f : A → Effect) (l : list A) (st : State) :
  forEach l (λ x, effect (f x)) st = (tt, st, f <$> l).
Proof.
  induction l as [|x l IH]; [done|].
  cbn. unfold mbind, L_bind. cbn. by rewrite IH.
Qed.

Lemma dispose_effects (st : State) :
  CommandRegistry.dispose st
  = (tt, st, disposable_dispose <$> disposables st).
Proof.
  unfold CommandRegistry.dispose, mbind, L_bind, gets.
  by rewrite forEach_effect.
Qed.

Lemma registered_listeners (l : list IDataScienceCommandListener) :
  registered (listener_register <$> l) = []
  ∧ handedOut (listener_register <$> l) = [].
Proof. by induction l. Qed.

Lemma disposed_disposals (l : list IDisposable) :
  disposed (disposable_dispose <$> l) = l
  ∧ registered (disposable_dispose <$> l) = []
  ∧ handedOut (disposable_dispose <$> l) = [].
Proof.
  unfold disposed, registered, handedOut.
  induction l as [|d l (IH1 & IH2 & IH3)]; [done|].
  rewrite fmap_cons. cbn [omap list_omap]. by rewrite IH1, IH2, IH3.
Qed.

Ltac run_lifecycle :=
  lazy beta iota zeta delta
    [CommandRegistry.register CommandRegistry.registerCommand
     ICommandManager.registerCommand mbind L_bind mret L_ret gets effect push
     disposables commandListeners registrations].

(** Runs [register()] symbolically from the state in the goal. *)
Ltac run_register :=
  match goal with
  | |- context [CommandRegistry.register ?st] =>
      destruct st as [ds [l|] n]
  end;
  run_lifecycle;
  [ change (λ (listener : IDataScienceCommandListener) (st : State),
              (tt, st, [listener_register listener]))
      with (λ listener, effect (listener_register listener));
    rewrite forEach_effect; run_lifecycle | ];
  cbn [app].

Ltac read_effects l :=
  unfold handedOut, registered; cbn [omap list_omap];
  try (fold (handedOut (listener_register <$> l));
       rewrite (proj2 (registered_listeners l)));
  try (fold (registered (listener_register <$> l));
       rewrite (proj1 (registered_listeners l))).

(** What one call of [register()] does to the object, from any state. *)
Lemma register_run (st : State) :
  ∃ effects,
    CommandRegistry.register st
    = (tt,
       {| disposables := disposables st ++ handedOut effects;
          commandListeners := commandListeners st;
          registrations := 29 + registrations st |},
       effects)
    ∧ handedOut effects = registration <$> seq (registrations st) 29.
Proof.
  run_register;
    match goal with |- ∃ e, (_, _, ?E) = _ ∧ _ => exists E end;
    match goal with |- _ ∧ ?P => assert P as H end.
  1,3: read_effects l; reflexivity.
  all: split; [|done]; rewrite H, <- !(assoc_L (++)); reflexivity.
Qed.

(** C1: [register()] hands to [commandManager.registerCommand] exactly
    the twenty-nine commands listed in the file, once each and in the
    order of the file, every one with the handler method the file binds
    to it; whatever the state of the object and however many listeners
    are injected, no other command goes through [registerCommand]. *)
Theorem register_registers_the_fixed_commands (st : State) :
  registered (snd (CommandRegistry.register st))
  = [ (DataScienceCommand Commands.RunAllCells, Method.runAllCells);
    (DataScienceCommand Commands.RunCell, Method.runCell);
    (DataScienceCommand Commands.RunCurrentCell, Method.runCurrentCell);
    (DataScienceCommand Commands.RunCurrentCellAdvance,
     Method.runCurrentCellAndAdvance);
    (DataScienceCommand Commands.ExecSelectionInInteractiveWindow,
     Method.runSelectionOrLine);
    (DataScienceCommand Commands.RunAllCellsAbove,
     Method.runAllCellsAbove);
    (DataScienceCommand Commands.RunCellAndAllBelow,
     Method.runCellAndAllBelow);
    (DataScienceCommand Commands.RunAllCellsAbovePalette,
     Method.runAllCellsAboveFromCursor);
    (DataScienceCommand Commands.RunCellAndAllBelowPalette,
     Method.runCellAndAllBelowFromCursor);
    (DataScienceCommand Commands.RunToLine, Method.runToLine);
    (DataScienceCommand Commands.RunFromLine, Method.runFromLine);
    (DataScienceCommand Commands.RunFileInInteractiveWindows,
     Method.runFileInteractive);
    (DataScienceCommand Commands.DebugFileInInteractiveWindows,
     Method.debugFileInteractive);
    (DataScienceCommand Commands.AddCellBelow, Method.addCellBelow);
    (DataScienceCommand Commands.RunCurrentCellAndAddBelow,
     Method.runCurrentCellAndAddBelow);
    (DataScienceCommand Commands.DebugCell, Method.debugCell);
    (DataScienceCommand Commands.DebugStepOver, Method.debugStepOver);
    (DataScienceCommand Commands.DebugContinue, Method.debugContinue);
    (DataScienceCommand Commands.DebugStop, Method.debugStop);
    (DataScienceCommand Commands.DebugCurrentCellPalette,
     Method.debugCurrentCellFromCursor);
    (DataScienceCommand Commands.CreateNewNotebook,
     Method.createNewNotebook);
    (DataScienceCommand Commands.ViewJupyterOutput,
     Method.viewJupyterOutput);
    (DataScienceCommand Commands.ExportAsPythonScript,
     Method.exportAsPythonScript);
    (DataScienceCommand Commands.ExportToHTML, Method.exportToHTML);
    (DataScienceCommand Commands.ExportToPDF, Method.exportToPDF);
    (DataScienceCommand Commands.Export, Method.export);
    (DataScienceCommand Commands.GatherQuality,
     Method.reportGatherQuality);
    (DataScienceCommand Commands.EnableLoadingWidgetsFrom3rdPartySource,
     Method.enableLoadingWidgetScriptsFromThirdParty);
    (CoreCommand coreCommands.OpenStartPage, Method.openStartPage) ].
Proof. run_register; cbn [snd]; read_effects l; reflexivity. Qed.

Lemma handedOut_app (e1 e2 : list Effect) :
  handedOut (e1 ++ e2) = handedOut e1 ++ handedOut e2.
Proof. apply omap_app. Qed.

(** Whatever is done to the object afterwards, the array only grows by
    what the command manager hands out, and that is always new. *)
Lemma operations_run (ops : list Operation) (st : State) :
  ∃ st' effects k,
    forEach ops perform st = (tt, st', effects)
    ∧ disposables st' = disposables st ++ handedOut effects
    ∧ handedOut effects = registration <$> seq (registrations st) k
    ∧ registrations st' = (registrations st + k)%nat.
Proof.
  revert st. induction ops as [|op ops IH]; intros st.
  - exists st, [], 0%nat. cbn. rewrite app_nil_r. repeat split; lia.
  - cbn [forEach]. unfold mbind, L_bind.
    destruct op; cbn [perform].
    + destruct (register_run st) as (e1 & -> & H1).
      match goal with
      | |- context [forEach ops perform ?st1] =>
          destruct (IH st1) as (st' & e2 & k & -> & Hd & H2 & Hn)
      end.
      cbn [disposables registrations] in *.
      exists st', (e1 ++ e2), (29 + k)%nat.
      rewrite handedOut_app, Hd, H1, H2, <- (assoc_L (++)), <- fmap_app.
      split; [done|]. split; [done|]. split; [|lia].
      rewrite (seq_app 29 k). do 3 f_equal. lia.
    + rewrite dispose_effects.
      destruct (IH st) as (st' & e2 & k & -> & Hd & H2 & Hn).
      exists st', ((disposable_dispose <$> disposables st) ++ e2), k.
      rewrite handedOut_app.
      rewrite (proj2 (proj2 (disposed_disposals (disposables st)))).
      done.
Qed.

Lemma NoDup_registrations (n k : nat) :
  NoDup ([serverSelectedCommand; kernelSwitcherCommand]
           ++ (registration <$> seq n k)).
Proof.
  cbn [app]. repeat apply NoDup_cons_2.
  - rewrite elem_of_cons, list_elem_of_fmap. intros [?|(? & ? & _)]; done.
  - rewrite list_elem_of_fmap. intros (? & ? & _); done.
  - apply NoDup_fmap_2; [intros ?? [=]; done|apply NoDup_seq].
Qed.

Lemma occurs_once (d : IDisposable) (l : list IDisposable) :
  NoDup l → d ∈ l → length (filter (d =.) l) = 1%nat.
Proof.
  induction 1 as [|x l Hx Hl IH]; intros Hin.
  - by apply elem_of_nil in Hin.
  - apply elem_of_cons in Hin as [->|Hin].
    + rewrite filter_cons_True by done. cbn. f_equal.
      clear -Hx. induction l as [|y l IH]; [done|].
      apply not_elem_of_cons in Hx as [Hxy Hx].
      rewrite filter_cons_False by done. by apply IH.
    + rewrite filter_cons_False; [by apply IH|].
      intros ->. done.
Qed.

(** C10: the constructor leaves the two injected commands in
    [disposables]; from then on, through any sequence of [register()]
    and [dispose()] calls, the array holds exactly those two followed by
    every disposable [commandManager.registerCommand] has returned, one
    per call and none twice; each [register()] appends the twenty-nine
    it obtains; and [dispose()] calls [dispose] on every element of the
    array, once each, in order, and on nothing else. *)
Theorem disposables_hold_every_registration
    (listeners : option (list IDataScienceCommandListener))
    (accepted : nat) (ops : list Operation) :
  disposables (CommandRegistry.constructor listeners accepted)
  = [serverSelectedCommand; kernelSwitcherCommand]
  ∧ (let '(st, effects) := lifetime listeners accepted ops in
     disposables st
     = [serverSelectedCommand; kernelSwitcherCommand] ++ handedOut effects
     ∧ length (handedOut effects) = length (registered effects)
     ∧ NoDup (disposables st)
     ∧ (let '(_, st', registering) := CommandRegistry.register st in
        disposables st' = disposables st ++ handedOut registering
        ∧ length (handedOut registering) = 29%nat)
     ∧ (let '(_, st', disposing) := CommandRegistry.dispose st in
        st' = st
        ∧ disposing = disposable_dispose <$> disposables st
        ∧ disposed disposing = disposables st
        ∧ Forall (λ d, length (filter (d =.) (disposed disposing)) = 1%nat)
                 (disposables st))).
Proof.
  split; [done|].
  unfold lifetime.
  destruct (operations_run ops
              (CommandRegistry.constructor listeners accepted))
    as (st & effects & k & -> & Hd & Hh & Hn).
  change (disposables (CommandRegistry.constructor listeners accepted))
    with [serverSelectedCommand; kernelSwitcherCommand] in Hd.
  assert (NoDup (disposables st)) as Hnodup.
  { rewrite Hd, Hh. apply NoDup_registrations. }
  split; [done|]. split.
  { unfold handedOut, registered. clear.
    induction effects as [|[] effects IH]; cbn; congruence. }
  split; [done|]. split.
  { destruct (register_run st) as (e1 & -> & H1).
    split; [done|]. by rewrite H1, length_fmap, length_seq. }
  rewrite dispose_effects.
  rewrite (proj1 (disposed_disposals (disposables st))).
  do 3 (split; [done|]).
  apply Forall_forall. intros d Hin. by apply occurs_once.
Qed.

(** ** Looking a code watcher up *)

Section matching.

Context {A : Type} (P : A → Prop) `{Pdec : !∀ x, Decision (P x)}.

Lemma filter_none (l : list A) :
  (∀ x, x ∈ l → ¬ P x) → filter P l = [].
Proof.
  induction l as [|x l IH]; intros Hnone; [done|].
  rewrite filter_cons_False by (apply Hnone; left).
  apply IH. intros y Hy. apply Hnone. by right.
Qed.

Lemma filter_only (before after : list A) (x : A) :
  P x → (∀ y, y ∈ before ++ after → ¬ P y) →
  filter P (before ++ x :: after) = [x].
Proof.
  intros Hx Hothers.
  rewrite filter_app, filter_cons_True by done.
  rewrite !filter_none; [done| |];
    intros y Hy; apply Hothers, elem_of_app; auto.
Qed.

Lemma filter_two_ordered (l : list A) (i j : nat) (x y : A) :
  (i < j)%nat → l !! i = Some x → l !! j = Some y → P x → P y →
  ∃ a b rest, filter P l = a :: b :: rest.
Proof.
  intros Hij Hi Hj Hx Hy.
  rewrite <- (take_drop_middle l i x Hi).
  assert (drop (S i) l !! (j - S i)%nat = Some y) as Hj'.
  { rewrite lookup_drop. rewrite <- Hj. f_equal. lia. }
  rewrite <- (take_drop_middle _ _ _ Hj').
  rewrite filter_app, filter_cons_True, filter_app, filter_cons_True by done.
  destruct (filter P (take i l)) as [|a [|b r]];
    destruct (filter P (take (j - S i) (drop (S i) l)));
    cbn; eauto.
Qed.

Lemma filter_two (l : list A) (i j : nat) (x y : A) :
  i ≠ j → l !! i = Some x → l !! j = Some y → P x → P y →
  ∃ a b rest, filter P l = a :: b :: rest.
Proof.
  intros Hij Hi Hj Hx Hy.
  destruct (decide (i < j)%nat).
  - by eapply (filter_two_ordered l i j).
  - eapply (filter_two_ordered l j i); [lia|done..].
Qed.

End matching.

Lemma getCodeWatcher_mismatch (file : string) (w : World)
    (i j : nat) (d1 d2 : TextDocument.t) :
  i ≠ j →
  textDocuments w !! i = Some d1 → textDocuments w !! j = Some d2 →
  TextDocument.fileName d1 = file → TextDocument.fileName d2 = file →
  CommandRegistry.getCodeWatcher file w
  = mkRun []
      (Throw (new_Error (localized w DataScience.documentMismatch) [file]))
      [].
Proof.
  intros Hij Hi Hj H1 H2.
  unfold CommandRegistry.getCodeWatcher, mbind, M_bind, reads. cbn.
  destruct (filter_two (λ d, TextDocument.fileName d = file)
              (textDocuments w) i j d1 d2) as (a & b & rest & ->); done.
Qed.

(** C3: [getCodeWatcher(file)] answers with what the code-lens provider
    gives for the one open document named [file] when exactly one is
    open (asking the provider for that document and nothing else),
    answers [undefined] without asking anybody when no open document is
    named [file], and throws the document-mismatch error formatted with
    [file] when two or more open documents are named [file]. *)
Theorem getCodeWatcher_by_file_name (file : string) (w : World) :
  (∀ before d after,
     textDocuments w = before ++ d :: after →
     TextDocument.fileName d = file →
     (∀ d', d' ∈ before ++ after → TextDocument.fileName d' ≠ file) →
     CommandRegistry.getCodeWatcher file w
     = mkRun [Looked (dataScienceCodeLensProvider_getCodeWatcher d)]
             (Normal (watcherOf w d)) [])
  ∧ ((∀ d, d ∈ textDocuments w → TextDocument.fileName d ≠ file) →
     CommandRegistry.getCodeWatcher file w = mkRun [] (Normal None) [])
  ∧ (∀ i j d1 d2,
       i ≠ j →
       textDocuments w !! i = Some d1 → textDocuments w !! j = Some d2 →
       TextDocument.fileName d1 = file → TextDocument.fileName d2 = file →
       CommandRegistry.getCodeWatcher file w
       = mkRun []
           (Throw (new_Error (localized w DataScience.documentMismatch)
                     [file]))
           []).
Proof.
  unfold CommandRegistry.getCodeWatcher, mbind, M_bind, reads. cbn.
  repeat split.
  - intros before d after -> Hd Hothers.
    by rewrite (filter_only _ before after d).
  - intros Hnone. by rewrite filter_none.
  - intros i j d1 d2. apply getCodeWatcher_mismatch.
Qed.

Lemma getCodeWatcher_by_file_name_witness :
  let w := opened [TextDocument.mk "a.py" 1; TextDocument.mk "b.py" 2;
                   TextDocument.mk "b.py" 3] None in
  completion (CommandRegistry.getCodeWatcher "a.py" w) = Normal (Some 1%nat)
  ∧ completion (CommandRegistry.getCodeWatcher "c.py" w) = Normal None
  ∧ completion (CommandRegistry.getCodeWatcher "b.py" w)
    = Throw (new_Error "Cannot run cells in {0}" ["b.py"]).
Proof.
  intros w. split; [|split].
  - destruct (getCodeWatcher_by_file_name "a.py" w) as (H & _ & _).
    rewrite (H [] (TextDocument.mk "a.py" 1)
               [TextDocument.mk "b.py" 2; TextDocument.mk "b.py" 3]);
      [reflexivity..|].
    intros d' Hd'. cbn in Hd'.
    apply elem_of_cons in Hd' as [->|Hd']; [discriminate|].
    apply elem_of_cons in Hd' as [->|Hd']; [discriminate|].
    by apply elem_of_nil in Hd'.
  - destruct (getCodeWatcher_by_file_name "c.py" w) as (_ & H & _).
    rewrite H; [reflexivity|].
    intros d Hd. cbn in Hd.
    repeat (apply elem_of_cons in Hd as [->|Hd]; [discriminate|]).
    by apply elem_of_nil in Hd.
  - destruct (getCodeWatcher_by_file_name "b.py" w) as (_ & _ & H).
    rewrite (H 1%nat 2%nat (TextDocument.mk "b.py" 2)
               (TextDocument.mk "b.py" 3)); [reflexivity|lia|reflexivity..].
Defined.

(** The three ways [getCodeWatcher] can go. *)
Lemma getCodeWatcher_cases (file : string) (w : World) :
  (∃ d, CommandRegistry.getCodeWatcher file w
        = mkRun [Looked (dataScienceCodeLensProvider_getCodeWatcher d)]
                (Normal (watcherOf w d)) [])
  ∨ CommandRegistry.getCodeWatcher file w = mkRun [] (Normal None) []
  ∨ CommandRegistry.getCodeWatcher file w
    = mkRun []
        (Throw (new_Error (localized w DataScience.documentMismatch) [file]))
        [].
Proof.
  unfold CommandRegistry.getCodeWatcher, mbind, M_bind, reads. cbn.
  destruct (filter _ (textDocuments w)) as [|d [|d' rest]]; eauto.
Qed.

Lemma getCurrentCodeWatcher_cases (w : World) :
  (∃ d, CommandRegistry.getCurrentCodeWatcher w
        = mkRun [Looked (dataScienceCodeLensProvider_getCodeWatcher d)]
                (Normal (watcherOf w d)) [])
  ∨ CommandRegistry.getCurrentCodeWatcher w = mkRun [] (Normal None) [].
Proof.
  unfold CommandRegistry.getCurrentCodeWatcher, mbind, M_bind, reads. cbn.
  destruct (activeTextEditor w) as [[[d|] sel]|]; cbn; eauto.
Qed.

(** Runs a handler symbolically, splitting on how its lookups go. *)
Ltac run_step :=
  match goal with
  | H : CommandRegistry.getCodeWatcher ?f ?w = _
    |- context [CommandRegistry.getCodeWatcher ?f ?w] => rewrite !H
  | H : CommandRegistry.getCurrentCodeWatcher ?w = _
    |- context [CommandRegistry.getCurrentCodeWatcher ?w] => rewrite !H
  | |- context [CommandRegistry.getCodeWatcher ?f ?w] =>
      let H := fresh "Hfile" in
      destruct (getCodeWatcher_cases f w) as [[? H]|[H|H]]
  | |- context [CommandRegistry.getCurrentCodeWatcher ?w] =>
      let H := fresh "Hcurrent" in
      destruct (getCurrentCodeWatcher_cases w) as [[? H]|H]
  | |- context [match watcherOf ?w ?d with _ => _ end] =>
      destruct (watcherOf w d)
  | _ => progress cbn
  end.

Ltac run_handler := repeat run_step.

(** C4, as the code has it: each of [runAllCells], [runFileInteractive]
    and [debugFileInteractive] rejects with the error of the file-name
    lookup, without delegating, when that lookup throws (more than one
    open document has the name); otherwise it delegates to the code
    watcher the lookup found, else to the code watcher of the active
    editor's document, and with neither it resolves without any
    delegated call.  A delegation is the one call of the method of the
    same name, without arguments, and the handler's promise is the one
    that call returned. *)
Theorem file_handlers_delegate :
  Forall
    (λ '(handler, method),
       ∀ (file : string) (w : World),
         match
           completion (CommandRegistry.getCodeWatcher file w),
           completion (CommandRegistry.getCurrentCodeWatcher w)
         with
         | Throw e, _ =>
             e = new_Error (localized w DataScience.documentMismatch) [file]
             ∧ calls (trace (handler file w)) = []
             ∧ completion (handler file w) = Normal (Rejected e)
         | Normal (Some watcher), _ | Normal None, Normal (Some watcher) =>
             calls (trace (handler file w)) = [onCodeWatcher watcher method]
             ∧ completion (handler file w)
               = Normal (settles w (onCodeWatcher watcher method))
         | Normal None, _ =>
             calls (trace (handler file w)) = []
             ∧ completion (handler file w) = Normal (Fulfilled tt)
         end
         ∧ (∀ i j d1 d2,
              i ≠ j →
              textDocuments w !! i = Some d1 →
              textDocuments w !! j = Some d2 →
              TextDocument.fileName d1 = file →
              TextDocument.fileName d2 = file →
              calls (trace (handler file w)) = []
              ∧ completion (handler file w)
                = Normal
                    (Rejected
                       (new_Error (localized w DataScience.documentMismatch)
                          [file]))))
    [ (CommandRegistry.runAllCells, ICodeWatcher.runAllCells);
      (CommandRegistry.runFileInteractive, ICodeWatcher.runFileInteractive);
      (CommandRegistry.debugFileInteractive,
       ICodeWatcher.debugFileInteractive) ].
Proof.
  repeat apply Forall_cons_2; [..|apply Forall_nil_2];
    intros file w;
    unfold CommandRegistry.runAllCells, CommandRegistry.runFileInteractive,
      CommandRegistry.debugFileInteractive, async, trace, mbind, M_bind,
      CommandRegistry.orElse;
    (split;
     [ run_handler; auto
     | intros i j d1 d2 Hij Hi Hj H1 H2;
       rewrite (getCodeWatcher_mismatch file w i j d1 d2) by done;
       by cbn ]).
Qed.

Lemma file_handlers_delegate_witness :
  let w := opened [TextDocument.mk "a.py" 1; TextDocument.mk "a.py" 2]
                  (Some (TextDocument.mk "c.py" 3)) in
  calls (trace (CommandRegistry.debugFileInteractive "a.py" w)) = []
  ∧ completion (CommandRegistry.debugFileInteractive "a.py" w)
    = Normal (Rejected (new_Error "Cannot run cells in {0}" ["a.py"])).
Proof.
  intros w.
  pose proof file_handlers_delegate as H.
  apply Forall_cons_1 in H as [_ H].
  apply Forall_cons_1 in H as [_ H].
  apply Forall_cons_1 in H as [H _].
  destruct (H "a.py" w) as [_ Hmismatch].
  apply (Hmismatch 0%nat 1%nat (TextDocument.mk "a.py" 1)
           (TextDocument.mk "a.py" 2)); [lia|reflexivity..].
Defined.

(** C4 as the spec words it fails where two open documents share the
    name: the lookup finds no code watcher, the active editor has one,
    and still nothing is delegated to it. *)
Lemma runAllCells_mismatch_does_not_fall_back :
  let w := opened [TextDocument.mk "a.py" 1; TextDocument.mk "a.py" 2]
                  (Some (TextDocument.mk "c.py" 3)) in
  ¬ ((∀ watcher, completion (CommandRegistry.getCodeWatcher "a.py" w)
                 ≠ Normal (Some watcher)) →
     ∀ watcher,
       completion (CommandRegistry.getCurrentCodeWatcher w)
       = Normal (Some watcher) →
       calls (trace (CommandRegistry.runAllCells "a.py" w))
       = [onCodeWatcher watcher ICodeWatcher.runAllCells]).
Proof.
  intros w claim.
  specialize (claim ltac:(intros; discriminate) 3%nat eq_refl).
  discriminate claim.
Qed.

(** ** Debugging *)

(** C5: [debugStepOver], [debugStop] and [debugContinue] execute their
    workbench command exactly when [debugService.activeDebugSession] is
    set: with a session the handler's only delegated call is
    [executeCommand] of that command, without one it makes no call at
    all; either way it resolves. *)
Theorem debug_handlers_need_a_session :
  Forall
    (λ '(handler, command),
       ∀ w : World,
         (is_Some (activeDebugSession w)
          ↔ commandManager_executeCommand command
            ∈ calls (trace (handler w)))
         ∧ calls (trace (handler w))
           = match activeDebugSession w with
             | Some _ => [commandManager_executeCommand command]
             | None => []
             end
         ∧ completion (handler w) = Normal (Fulfilled tt))
    [ (CommandRegistry.debugStepOver, "workbench.action.debug.stepOver");
      (CommandRegistry.debugStop, "workbench.action.debug.stop");
      (CommandRegistry.debugContinue, "workbench.action.debug.continue") ].
Proof.
  repeat apply Forall_cons_2; [..|apply Forall_nil_2];
    intros w;
    unfold CommandRegistry.debugStepOver, CommandRegistry.debugStop,
      CommandRegistry.debugContinue, CommandRegistry.inDebugMode,
      captureTelemetry, async, trace, mbind, M_bind, reads;
    cbn; destruct (activeDebugSession w); cbn;
    (split; [|done]); split;
    try (intros _; apply list_elem_of_here);
    try (intros []; discriminate);
    try (intros []%elem_of_nil);
    eauto.
Qed.

(** ** Gather survey *)

(** C6: [reportGatherQuality(val)] sends one [GatherQualityReport]
    telemetry event, whose [result] is ['no'] when [val] is ['no'] and
    ['yes'] for every other [val], and then opens
    [https://aka.ms/gathersurvey?succeed=] followed by [val]; it does
    nothing else. *)
Theorem reportGatherQuality_reports_then_opens (val : string) (w : World) :
  ∃ result,
    CommandRegistry.reportGatherQuality val w
    = mkRun
        [ Called (sendTelemetryEvent Telemetry.GatherQualityReport None
                    [("result", result)]);
          Called (env_openExternal
                    (Uri.parse
                       ("https://aka.ms/gathersurvey?succeed=" +:+ val))) ]
        (Normal tt) []
    ∧ (val = "no" → result = "no")
    ∧ (val ≠ "no" → result = "yes").
Proof.
  unfold CommandRegistry.reportGatherQuality, mbind, M_bind, call_. cbn.
  eexists. split; [reflexivity|].
  case_bool_decide; split; congruence.
Qed.

Lemma reportGatherQuality_reports_then_opens_witness :
  calls (trace (CommandRegistry.reportGatherQuality "maybe" idle))
  = [ sendTelemetryEvent Telemetry.GatherQualityReport None
        [("result", "yes")];
      env_openExternal (Uri.parse "https://aka.ms/gathersurvey?succeed=maybe") ]
  ∧ calls (trace (CommandRegistry.reportGatherQuality "no" idle))
    = [ sendTelemetryEvent Telemetry.GatherQualityReport None
          [("result", "no")];
        env_openExternal (Uri.parse "https://aka.ms/gathersurvey?succeed=no") ].
Proof.
  split.
  - destruct (reportGatherQuality_reports_then_opens "maybe" idle)
      as (result & -> & _ & Hyes).
    rewrite Hyes by discriminate. reflexivity.
  - destruct (reportGatherQuality_reports_then_opens "no" idle)
      as (result & -> & Hno & _).
    rewrite Hno by reflexivity. reflexivity.
Defined.

(** ** Widget script sources *)

(** C7: with a non-empty [widgetScriptSources] the handler returns at
    once: no setting is updated and no message shown.  With an empty
    list it updates [dataScience.widgetScriptSources] to
    [jsdelivr.com, unpkg.com] at the global target, and shows the
    information message afterwards, once that update has gone through.
    No other setting is ever touched. *)
Theorem enableLoadingWidgetScripts_only_when_unset (w : World) :
  let run := CommandRegistry.enableLoadingWidgetScriptsFromThirdParty w in
  let update :=
    configService_updateSetting "dataScience.widgetScriptSources"
      ["jsdelivr.com"; "unpkg.com"] None Global in
  let message :=
    showInformationMessage appShell
      (localized w DataScience.loadThirdPartyWidgetScriptsPostEnabled) [] in
  completion run = Normal tt
  ∧ (widgetScriptSources w ≠ [] →
     calls (trace run) = [] ∧ ∀ σ, settingsAfter w (trace run) σ = σ)
  ∧ (widgetScriptSources w = [] →
     sync run = [Looked (configService_getSettings None); Called update]
     ∧ deferred run
       = match settles w update with
         | Fulfilled _ => [Called message]
         | Rejected _ => []
         end)
  ∧ (∀ σ setting,
       setting ≠ "dataScience.widgetScriptSources" →
       settingsAfter w (trace run) σ !! setting = σ !! setting).
Proof.
  intros run update message. subst run.
  unfold CommandRegistry.enableLoadingWidgetScriptsFromThirdParty,
    trace, settingsAfter, mbind, M_bind, look, call, then_, reads.
  cbn. destruct (widgetScriptSources w) as [|source sources]; cbn.
  - fold update. destruct (settles w update) eqn:Hsettles; cbn;
      do 3 (split; [done|]); intros σ setting Hne; fold update;
      rewrite Hsettles; by rewrite ?lookup_insert_ne.
  - repeat split; done.
Qed.

Lemma enableLoadingWidgetScripts_only_when_unset_witness :
  calls (trace (CommandRegistry.enableLoadingWidgetScriptsFromThirdParty
                  (opened [] None)))
  = [ configService_updateSetting "dataScience.widgetScriptSources"
        ["jsdelivr.com"; "unpkg.com"] None Global;
      showInformationMessage appShell
        "Restart the kernel to load widgets" [] ]
  ∧ settingsAfter idle
      (trace (CommandRegistry.enableLoadingWidgetScriptsFromThirdParty idle))
      {[ "python.pythonPath" := ["python3"] ]}
    !! "python.pythonPath" = Some ["python3"].
Proof.
  split.
  - destruct (enableLoadingWidgetScripts_only_when_unset (opened [] None))
      as (_ & _ & Hempty & _).
    destruct (Hempty eq_refl) as [Hsync Hdeferred].
    unfold trace. rewrite Hsync, Hdeferred. reflexivity.
  - destruct (enableLoadingWidgetScripts_only_when_unset idle)
      as (_ & _ & _ & Hframe).
    rewrite Hframe by discriminate. reflexivity.
Defined.

(** ** Export *)

(** C8: [getFileSaveLocation] shows the save dialog and returns
    [undefined], whatever the state of the collaborators and however
    the dialog's promise settles: the chosen URI only reaches the
    [then] callback, whose result nobody reads. *)
Theorem getFileSaveLocation_returns_undefined (w : World) :
  completion (CommandRegistry.getFileSaveLocation w) = Normal None
  ∧ trace (CommandRegistry.getFileSaveLocation w)
    = [ Called
          (showSaveDialog applicationShell
             {| defaultUri :=
                  INotebookEditor.file <$> notebookActiveEditor w;
                saveLabel := "";
                filters := [("Juypter Notebooks", ["ipynb"])] |}) ].
Proof.
  unfold CommandRegistry.getFileSaveLocation, trace, mbind, M_bind, reads,
    call, then_.
  cbn. by destruct (savedTo w _).
Qed.

(** C9: [exportAsPythonScript], [exportToHTML] and [exportToPDF] have
    empty bodies: invoked as the handlers of their commands or as the
    handler of an Export quick-pick item (any of the three items, and so
    whichever item the quick pick resolves to), they return without
    calling any collaborator. *)
Theorem export_handlers_do_nothing (w : World) :
  CommandRegistry.exportAsPythonScript w = mkRun [] (Normal tt) []
  ∧ CommandRegistry.exportToHTML w = mkRun [] (Normal tt) []
  ∧ CommandRegistry.exportToPDF w = mkRun [] (Normal tt) []
  ∧ body Method.exportAsPythonScript tt w = mkRun [] (Normal void) []
  ∧ body Method.exportToHTML tt w = mkRun [] (Normal void) []
  ∧ body Method.exportToPDF tt w = mkRun [] (Normal void) []
  ∧ Forall (λ item, handler item w = mkRun [] (Normal tt) [])
           CommandRegistry.getExportQuickPickItems
  ∧ match completion (CommandRegistry.showExportQuickPick w) with
    | Normal (Fulfilled (Some item)) =>
        handler item w = mkRun [] (Normal tt) []
    | _ => True
    end.
Proof.
  do 6 (split; [reflexivity|]).
  split; [repeat constructor|].
  unfold CommandRegistry.showExportQuickPick, async, mbind, M_bind, call,
    await.
  cbn. destruct (pickedItem w _) as [[[picked_label picked_flag]|]|]; cbn;
    try done.
  repeat (case_bool_decide; cbn; [done|]). done.
Qed.

(** ** The shape of a handler *)

Lemma capturedOnly_spec (events : list Event) :
  forallb isCaptured events = true →
  ∃ captured, events = Captured <$> captured.
Proof.
  induction events as [|[| |eventName] events IH]; cbn; try done.
  - by exists [].
  - intros [captured ->]%IH. by exists (eventName :: captured).
Qed.

Lemma lookupsThenOneCall_spec (events : list Event) :
  lookupsThenOneCall events = true →
  ∃ lookups delegated captured,
    events
    = (Looked <$> lookups) ++ (Called <$> delegated) ++ (Captured <$> captured)
    ∧ (length delegated ≤ 1)%nat.
Proof.
  induction events as [|[l|c|eventName] events IH]; cbn.
  - exists [], [], []. cbn. split; [done|lia].
  - intros (lookups & delegated & captured & -> & Hle)%IH.
    by exists (l :: lookups), delegated, captured.
  - intros [captured ->]%capturedOnly_spec.
    exists [], [c], captured. cbn. split; [done|lia].
  - intros [captured ->]%capturedOnly_spec.
    exists [], [], (eventName :: captured). cbn. split; [done|lia].
Qed.

Lemma lookupsThenOneCall_lookups (lookups : list Lookup) (events : list Event) :
  lookupsThenOneCall ((Looked <$> lookups) ++ events)
  = lookupsThenOneCall events.
Proof. by induction lookups. Qed.

Lemma find_quiet {A} (p : A → M bool) (l : list A) (w : World) :
  (∀ x, ∃ c, p x w = mkRun [] c []) →
  ∃ c, find_ p l w = mkRun [] c [].
Proof.
  intros Hp. induction l as [|x l [c IH]]; cbn.
  - by eexists.
  - unfold mbind, M_bind. destruct (Hp x) as [[[|]|e] ->]; cbn; eauto.
    rewrite IH. cbn. eauto.
Qed.

(** [getCurrentCodeLens] only looks things up. *)
Lemma getCurrentCodeLens_cases (w : World) :
  ∃ lookups c,
    CommandRegistry.getCurrentCodeLens w = mkRun (Looked <$> lookups) c [].
Proof.
  unfold CommandRegistry.getCurrentCodeLens, mbind at 1 2, M_bind, reads, look.
  cbn.
  destruct (getCurrentCodeWatcher_cases w) as [[d ->]| ->]; cbn;
    destruct (activeTextEditor w) as [editor|]; cbn;
    try destruct (watcherOf w d) as [watcher|]; cbn;
    try (by eexists [_], _); try (by eexists [], _).
  unfold mbind, M_bind. cbn.
  match goal with
  | |- context [find_ ?p ?l w] => destruct (find_quiet p l w) as [c ->]
  end.
  { intros x. destruct (TextEditor.selection editor); cbn; eauto. }
  cbn. by eexists [_; _], _.
Qed.

Ltac run_shape_step :=
  match goal with
  | |- context [CommandRegistry.getCurrentCodeLens ?w] =>
      let lookups := fresh "lookups" in
      let H := fresh "Hlens" in
      destruct (getCurrentCodeLens_cases w) as (lookups & [[?|]|?] & H);
      rewrite !H
  | |- context [if CommandRegistry.truthy ?file then _ else _] =>
      destruct (CommandRegistry.truthy file)
  | |- context [activeTextEditor ?w] =>
      destruct (activeTextEditor w) as [[? [?|]]|]
  | |- context [activeDebugSession ?w] => destruct (activeDebugSession w)
  | |- context [match settles ?w ?c with _ => _ end] => destruct (settles w c)
  | _ => run_step
  end.

(** Splits on what the user and the promises do. *)
Ltac run_prompts :=
  repeat match goal with
         | |- context [match pickedItem ?w ?c with _ => _ end] =>
             destruct (pickedItem w c) as [[[? ?]|]|?]
         | |- context [notebookActiveEditor ?w] =>
             destruct (notebookActiveEditor w) as [[? [|] [|]]|]
         | |- context [match answered ?w ?c with _ => _ end] =>
             destruct (answered w c) as [?|?]
         | |- context [match savedTo ?w ?c with _ => _ end] =>
             destruct (savedTo w c) as [?|?]
         | |- context [match settles ?w ?c with _ => _ end] =>
             destruct (settles w c) as [?|?]
         | |- context [widgetScriptSources ?w] =>
             destruct (widgetScriptSources w) as [|? ?]
         | |- context [bool_decide ?P] => destruct (bool_decide P)
         | _ => progress cbn
         end.

Ltac run_shape :=
  unfold returning, async, captureTelemetry, trace, mbind, M_bind, reads,
    CommandRegistry.orElse, await;
  repeat run_shape_step;
  rewrite <- ?(assoc_L (++)), ?lookupsThenOneCall_lookups;
  try reflexivity.

(** C2, as the code has it: every handler bound by [register()], except
    [reportGatherQuality], [enableLoadingWidgetScriptsFromThirdParty]
    and [export], first looks collaborators up and then makes at most
    one delegated call (followed at most by the telemetry its decorator
    records).  [reportGatherQuality] always makes two delegated calls,
    [enableLoadingWidgetScriptsFromThirdParty] up to two and [export]
    up to three. *)
Theorem handlers_look_up_then_delegate_once
    (m : Method.t) (args : arguments m) (w : World) :
  let events := trace (body m args w) in
  match m with
  | Method.reportGatherQuality => length (calls events) = 2%nat
  | Method.enableLoadingWidgetScriptsFromThirdParty =>
      (length (calls events) ≤ 2)%nat
  | Method.export => (length (calls events) ≤ 3)%nat
  | _ =>
      ∃ lookups delegated captured,
        events
        = (Looked <$> lookups) ++ (Called <$> delegated)
          ++ (Captured <$> captured)
        ∧ (length delegated ≤ 1)%nat
  end.
Proof.
  destruct m; cbn in args |- *;
    try apply lookupsThenOneCall_spec.
  all: repeat match goal with a : (_ * _)%type |- _ => destruct a end.
  all: try (unfold CommandRegistry.runAllCells, CommandRegistry.runCell,
    CommandRegistry.runCurrentCell, CommandRegistry.runCurrentCellAndAdvance,
    CommandRegistry.runSelectionOrLine, CommandRegistry.runAllCellsAbove,
    CommandRegistry.runCellAndAllBelow,
    CommandRegistry.runAllCellsAboveFromCursor,
    CommandRegistry.runCellAndAllBelowFromCursor, CommandRegistry.runToLine,
    CommandRegistry.runFromLine, CommandRegistry.runFileInteractive,
    CommandRegistry.debugFileInteractive, CommandRegistry.addCellBelow,
    CommandRegistry.runCurrentCellAndAddBelow, CommandRegistry.debugCell,
    CommandRegistry.debugStepOver, CommandRegistry.debugContinue,
    CommandRegistry.debugStop, CommandRegistry.inDebugMode,
    CommandRegistry.debugCurrentCellFromCursor,
    CommandRegistry.createNewNotebook, CommandRegistry.viewJupyterOutput,
    CommandRegistry.exportAsPythonScript, CommandRegistry.exportToHTML,
    CommandRegistry.exportToPDF, CommandRegistry.openStartPage; run_shape).
  all: unfold CommandRegistry.enableLoadingWidgetScriptsFromThirdParty,
    CommandRegistry.export, CommandRegistry.showExportQuickPick,
    CommandRegistry.verifySaved, CommandRegistry.getFileSaveLocation,
    returning, async, then_, trace, mbind, M_bind, reads, look, call, await;
    run_prompts; lia.
Qed.

(** C2 as the spec words it fails on [reportGatherQuality]: it makes two
    delegated calls, to telemetry and to [env.openExternal]. *)
Lemma reportGatherQuality_makes_two_calls :
  ¬ (length (calls (trace (body Method.reportGatherQuality "yes" idle)))
     ≤ 1)%nat.
Proof. intros claim. vm_compute in claim. lia. Qed.

(** ** Worked runs *)

Example runAllCells_by_name :
  calls (trace (CommandRegistry.runAllCells "a.py"
                  (opened [TextDocument.mk "a.py" 1; TextDocument.mk "b.py" 2]
                          (Some (TextDocument.mk "b.py" 2)))))
  = [onCodeWatcher 1%nat ICodeWatcher.runAllCells].
Proof. reflexivity. Qed.

Example runAllCells_falls_back :
  calls (trace (CommandRegistry.runAllCells "c.py"
                  (opened [TextDocument.mk "a.py" 1; TextDocument.mk "b.py" 2]
                          (Some (TextDocument.mk "b.py" 2)))))
  = [onCodeWatcher 2%nat ICodeWatcher.runAllCells].
Proof. reflexivity. Qed.

Example runAllCellsAbove_without_file :
  CommandRegistry.runAllCellsAbove "" 3 0
    (opened [TextDocument.mk "" 1] None)
  = mkRun [] (Normal (Fulfilled tt)) [].
Proof. reflexivity. Qed.

Example debugStop_in_a_session :
  trace (CommandRegistry.debugStop exporting)
  = [ Called (commandManager_executeCommand "workbench.action.debug.stop");
      Captured Telemetry.DebugStop ].
Proof. reflexivity. Qed.

Example export_of_a_dirty_notebook :
  CommandRegistry.export exporting
  = mkRun
      [ Called (showQuickPick applicationShell
                  [ QuickPickItem.mk "Python Script" true;
                    QuickPickItem.mk "HTML" false;
                    QuickPickItem.mk "PDF" false ]
                  {| ignoreFocusOut := true; matchOnDescription := true;
                     matchOnDetail := true; placeHolder := "Export As..." |}) ]
      (Normal tt)
      [ Called (showInformationMessage applicationShell
                  "Save before exporting?" ["Yes"; "Cancel"]);
        Called (showSaveDialog applicationShell
                  {| defaultUri := Some (Uri.parse "file:///nb.ipynb");
                     saveLabel := "";
                     filters := [("Juypter Notebooks", ["ipynb"])] |}) ].
Proof. reflexivity. Qed.

Example enableLoadingWidgetScripts_when_set :
  trace (CommandRegistry.enableLoadingWidgetScriptsFromThirdParty exporting)
  = [Looked (configService_getSettings None)].
Proof. reflexivity. Qed.

Example register_then_dispose :
  let '(st, effects) := lifetime None 0 [callRegister; callDispose] in
  length (disposables st) = 31%nat
  ∧ disposed effects = disposables st
  ∧ disposables st !! 2%nat = Some (registration 0).
Proof. vm_compute. repeat split. Qed.

(** * Further properties *)

(** ** Registering and disposing again *)

Lemma handedOut_registered_length (effects : list Effect) :
  length (handedOut effects) = length (registered effects).
Proof.
  unfold handedOut, registered.
  induction effects as [|[] effects IH]; cbn; congruence.
Qed.

Lemma registered_app (e1 e2 : list Effect) :
  registered (e1 ++ e2) = registered e1 ++ registered e2.
Proof. apply omap_app. Qed.

Lemma disposed_app (e1 e2 : list Effect) :
  disposed (e1 ++ e2) = disposed e1 ++ disposed e2.
Proof. apply omap_app. Qed.

(** [register()] first has the three injected sub-commands register
    themselves, then registers its twenty-nine commands, and only then
    hands the command manager to every injected listener, once each and
    in injection order; without injected listeners it stops after the
    commands. *)
Theorem register_calls_in_order (st : State) :
  ∃ commands,
    snd (CommandRegistry.register st)
    = [ commandLineCommand_register; serverSelectedCommand_register;
        kernelSwitcherCommand_register ]
      ++ commands
      ++ (listener_register <$> default [] (commandListeners st))
    ∧ length commands = 29%nat
    ∧ length (registered commands) = 29%nat.
Proof.
  run_register; cbn [snd commandListeners default];
    match goal with
    | |- ∃ c, ?E = _ ∧ _ => exists (take 29 (drop 3 E))
    end;
    repeat split.
Qed.

Lemma operations_count (ops : list Operation) (st : State) :
  ∃ st' effects,
    forEach ops perform st = (tt, st', effects)
    ∧ length (disposables st')
      = (length (disposables st)
         + 29 * length (filter (callRegister =.) ops))%nat
    ∧ registrations st'
      = (registrations st + 29 * length (filter (callRegister =.) ops))%nat
    ∧ length (registered effects)
      = (29 * length (filter (callRegister =.) ops))%nat.
Proof.
  revert st. induction ops as [|op ops IH]; intros st.
  - exists st, []. cbn. repeat split; lia.
  - cbn [forEach]. unfold mbind, L_bind.
    destruct op; cbn [perform].
    + destruct (register_run st) as (e1 & -> & H1).
      match goal with
      | |- context [forEach ops perform ?st1] =>
          destruct (IH st1) as (st' & e2 & -> & Hd & Hn & Hr)
      end.
      cbn [disposables registrations] in *.
      exists st', (e1 ++ e2).
      rewrite filter_cons_True by done. cbn [length].
      pose proof (handedOut_registered_length e1) as He1.
      rewrite H1, length_fmap, length_seq in He1.
      rewrite length_app, H1, length_fmap, length_seq in Hd.
      rewrite registered_app, length_app.
      repeat split; lia.
    + rewrite dispose_effects.
      destruct (IH st) as (st' & e2 & -> & Hd & Hn & Hr).
      exists st', ((disposable_dispose <$> disposables st) ++ e2).
      rewrite filter_cons_False by done.
      rewrite registered_app.
      rewrite (proj1 (proj2 (disposed_disposals (disposables st)))).
      done.
Qed.

(** [register()] does not guard against being called again: after [k]
    calls of it, mixed with any number of [dispose()] calls, the array
    holds [2 + 29 k] disposables and the command manager has been asked
    for [29 k] registrations, so every command has been registered [k]
    times. *)
Theorem every_register_call_registers_again
    (listeners : option (list IDataScienceCommandListener))
    (accepted : nat) (ops : list Operation) :
  let k := length (filter (callRegister =.) ops) in
  let '(st, effects) := lifetime listeners accepted ops in
  length (disposables st) = (2 + 29 * k)%nat
  ∧ registrations st = (accepted + 29 * k)%nat
  ∧ length (registered effects) = (29 * k)%nat.
Proof.
  unfold lifetime.
  destruct (operations_count ops
              (CommandRegistry.constructor listeners accepted))
    as (st & effects & -> & Hd & Hn & Hr).
  done.
Qed.

(** [dispose()] leaves the object as it was, array included: calling it
    [k] times in a row calls [dispose] on every element of the array
    [k] times, round after round, and registers nothing. *)
Theorem dispose_is_repeatable (st : State) (k : nat) :
  let '(_, st', effects) := forEach (replicate k callDispose) perform st in
  st' = st
  ∧ disposed effects = mjoin (replicate k (disposables st))
  ∧ registered effects = [].
Proof.
  induction k as [|k IH]; [done|].
  cbn [replicate forEach perform]. unfold mbind, L_bind.
  rewrite dispose_effects.
  destruct (forEach (replicate k callDispose) perform st)
    as [[[] st'] effects].
  destruct IH as (-> & Hdisposed & Hregistered).
  rewrite disposed_app, registered_app, Hdisposed, Hregistered.
  destruct (disposed_disposals (disposables st)) as (-> & -> & _).
  done.
Qed.

(** ** The code lens under the cursor *)

Lemma find_pure {A} (f : A → bool) (l : list A) (w : World) :
  find_ (λ x, mret (f x)) l w = mkRun [] (Normal (List.find f l)) [].
Proof.
  induction l as [|x l IH]; [done|].
  cbn. unfold mbind, M_bind. cbn. destruct (f x); [done|].
  by rewrite IH.
Qed.

Lemma find_throwing {A} (e : Error) (l : list A) (w : World) :
  find_ (λ _, throw e) l w
  = mkRun [] match l with [] => Normal None | _ :: _ => Throw e end [].
Proof. by destruct l. Qed.

Lemma find_first {A} (f : A → bool) (l : list A) :
  match List.find f l with
  | Some x =>
      ∃ before after,
        l = before ++ x :: after ∧ f x = true
        ∧ Forall (λ y, f y = false) before
  | None => Forall (λ y, f y = false) l
  end.
Proof.
  induction l as [|x l IH]; cbn; [done|].
  destruct (f x) eqn:Hx.
  - by exists [], l.
  - destruct (List.find f l) as [y|].
    + destruct IH as (before & after & -> & Hy & Hbefore).
      exists (x :: before), after. by repeat constructor.
    + by constructor.
Qed.

Lemma at_cursor_true (lens : CodeLens.t) (anchorLine : Z) :
  (Position.line (Range.end_ (CodeLens.range lens)) >=? anchorLine)%Z
  && (Position.line (Range.start (CodeLens.range lens)) <=? anchorLine)%Z
  = true
  ↔ (Position.line (Range.start (CodeLens.range lens)) ≤ anchorLine
     ≤ Position.line (Range.end_ (CodeLens.range lens)))%Z.
Proof. rewrite andb_true_iff, Z.geb_le, Z.leb_le. tauto. Qed.

Lemma at_cursor_false (lens : CodeLens.t) (anchorLine : Z) :
  (Position.line (Range.end_ (CodeLens.range lens)) >=? anchorLine)%Z
  && (Position.line (Range.start (CodeLens.range lens)) <=? anchorLine)%Z
  = false
  ↔ ¬ (Position.line (Range.start (CodeLens.range lens)) ≤ anchorLine
       ≤ Position.line (Range.end_ (CodeLens.range lens)))%Z.
Proof. rewrite <- at_cursor_true. by destruct (_ && _). Qed.

(** With an active editor whose document has a code watcher,
    [getCurrentCodeLens] asks the provider for that watcher and the
    watcher for its lenses, and answers with the first lens, in the
    watcher's order, whose line range contains the line of the
    selection's anchor; it answers [undefined] when no lens does.  When
    the editor has no selection it throws a [TypeError] unless the
    watcher has no lens at all. *)
Theorem getCurrentCodeLens_is_the_first_lens_at_the_cursor
    (w : World) (editor : TextEditor.t) (document : TextDocument.t)
    (watcher : ICodeWatcher.t) :
  activeTextEditor w = Some editor →
  TextEditor.document editor = Some document →
  watcherOf w document = Some watcher →
  trace (CommandRegistry.getCurrentCodeLens w)
  = [ Looked (dataScienceCodeLensProvider_getCodeWatcher document);
      Looked (codeWatcher_getCodeLenses watcher) ]
  ∧ match TextEditor.selection editor with
    | Some selection =>
        let atCursor lens :=
          (Position.line (Range.start (CodeLens.range lens))
           ≤ Position.line (Selection.anchor selection)
           ≤ Position.line (Range.end_ (CodeLens.range lens)))%Z in
        match completion (CommandRegistry.getCurrentCodeLens w) with
        | Normal (Some lens) =>
            ∃ before after,
              codeLensesOf w watcher = before ++ lens :: after
              ∧ atCursor lens
              ∧ Forall (λ earlier, ¬ atCursor earlier) before
        | Normal None =>
            Forall (λ lens, ¬ atCursor lens) (codeLensesOf w watcher)
        | Throw _ => False
        end
    | None =>
        completion (CommandRegistry.getCurrentCodeLens w)
        = match codeLensesOf w watcher with
          | [] => Normal None
          | _ :: _ => Throw TypeError
          end
    end.
Proof.
  intros Heditor Hdocument Hwatcher.
  unfold CommandRegistry.getCurrentCodeLens,
    CommandRegistry.getCurrentCodeWatcher,
    IDataScienceCodeLensProvider.getCodeWatcher, trace, mbind, M_bind,
    reads, look.
  rewrite Heditor, Hdocument. cbn. rewrite Hwatcher. cbn.
  destruct (TextEditor.selection editor) as [selection|].
  - rewrite find_pure. cbn. split; [done|].
    match goal with
    | |- context [List.find ?f ?l] =>
        pose proof (find_first f l) as Hfind; destruct (List.find f l)
    end.
    + destruct Hfind as (before & after & -> & Hlens & Hbefore).
      exists before, after. split; [done|].
      split; [by apply at_cursor_true|].
      eapply Forall_impl; [exact Hbefore|].
      intros earlier. apply at_cursor_false.
    + eapply Forall_impl; [exact Hfind|].
      intros lens. apply at_cursor_false.
  - rewrite find_throwing. by destruct (codeLensesOf w watcher).
Qed.

Lemma getCurrentCodeLens_is_the_first_lens_at_the_cursor_witness :
  trace (CommandRegistry.getCurrentCodeLens
           (cursorOn (TextDocument.mk "a.py" 1) 7%nat 8 8
              [lensOver 0 4; lensOver 5 9; lensOver 8 12]))
  = [ Looked (dataScienceCodeLensProvider_getCodeWatcher
                (TextDocument.mk "a.py" 1));
      Looked (codeWatcher_getCodeLenses 7%nat) ].
Proof.
  exact (proj1 (getCurrentCodeLens_is_the_first_lens_at_the_cursor
                  (cursorOn (TextDocument.mk "a.py" 1) 7%nat 8 8
                     [lensOver 0 4; lensOver 5 9; lensOver 8 12])
                  _ _ _ eq_refl eq_refl eq_refl)).
Defined.

Example getCurrentCodeLens_takes_the_first_of_two :
  completion (CommandRegistry.getCurrentCodeLens
                (cursorOn (TextDocument.mk "a.py" 1) 7%nat 8 8
                   [lensOver 0 4; lensOver 5 9; lensOver 8 12]))
  = Normal (Some (lensOver 5 9)).
Proof. reflexivity. Qed.

(** ** Handlers that work on the active editor *)

Lemma getCurrentCodeWatcher_active (w : World) (editor : TextEditor.t)
    (document : TextDocument.t) :
  activeTextEditor w = Some editor →
  TextEditor.document editor = Some document →
  CommandRegistry.getCurrentCodeWatcher w
  = mkRun [Looked (dataScienceCodeLensProvider_getCodeWatcher document)]
          (Normal (watcherOf w document)) [].
Proof.
  intros Heditor Hdocument.
  unfold CommandRegistry.getCurrentCodeWatcher, mbind, M_bind, reads.
  by rewrite Heditor, Hdocument.
Qed.

Lemma getCurrentCodeWatcher_inactive (w : World) :
  (∀ editor, activeTextEditor w = Some editor →
             TextEditor.document editor = None) →
  CommandRegistry.getCurrentCodeWatcher w = mkRun [] (Normal None) [].
Proof.
  intros Hnone.
  unfold CommandRegistry.getCurrentCodeWatcher, mbind, M_bind, reads.
  destruct (activeTextEditor w) as [editor|]; [|done].
  by rewrite (Hnone editor).
Qed.

Lemma getCurrentCodeLens_inactive (w : World) :
  (∀ editor, activeTextEditor w = Some editor →
             TextEditor.document editor = None) →
  CommandRegistry.getCurrentCodeLens w = mkRun [] (Normal None) [].
Proof.
  intros Hnone.
  unfold CommandRegistry.getCurrentCodeLens, mbind, M_bind.
  rewrite (getCurrentCodeWatcher_inactive w Hnone).
  unfold reads. by destruct (activeTextEditor w).
Qed.

(** Without an active editor, or with one that shows no document, none
    of the handlers that work on the active editor looks anything up or
    calls anybody: each resolves at once ([addCellBelow] still has its
    telemetry recorded by the decorator). *)
Theorem no_active_document_no_call (w : World) :
  (∀ editor, activeTextEditor w = Some editor →
             TextEditor.document editor = None) →
  Forall (λ handler : M (Promise unit),
            handler w = mkRun [] (Normal (Fulfilled tt)) [])
    [ CommandRegistry.runCurrentCell;
      CommandRegistry.runCurrentCellAndAdvance;
      CommandRegistry.runSelectionOrLine;
      CommandRegistry.runCurrentCellAndAddBelow;
      CommandRegistry.runToLine;
      CommandRegistry.runFromLine;
      CommandRegistry.runAllCellsAboveFromCursor;
      CommandRegistry.runCellAndAllBelowFromCursor;
      CommandRegistry.debugCurrentCellFromCursor ]
  ∧ CommandRegistry.addCellBelow w
    = mkRun [] (Normal (Fulfilled tt)) [Captured Telemetry.AddCellBelow].
Proof.
  intros Hnone.
  pose proof (getCurrentCodeWatcher_inactive w Hnone) as Hwatcher.
  pose proof (getCurrentCodeLens_inactive w Hnone) as Hlens.
  split; [repeat apply Forall_cons_2; [..|apply Forall_nil_2]|];
    unfold CommandRegistry.runCurrentCell,
      CommandRegistry.runCurrentCellAndAdvance,
      CommandRegistry.runSelectionOrLine,
      CommandRegistry.runCurrentCellAndAddBelow, CommandRegistry.runToLine,
      CommandRegistry.runFromLine,
      CommandRegistry.runAllCellsAboveFromCursor,
      CommandRegistry.runCellAndAllBelowFromCursor,
      CommandRegistry.debugCurrentCellFromCursor,
      CommandRegistry.addCellBelow, captureTelemetry, async, mbind, M_bind,
      reads;
    rewrite ?Hwatcher, ?Hlens; cbn;
    by destruct (activeTextEditor w).
Qed.

Lemma no_active_document_no_call_witness :
  CommandRegistry.runToLine idle = mkRun [] (Normal (Fulfilled tt)) [].
Proof.
  destruct (no_active_document_no_call idle) as [Hall _];
    [intros editor; discriminate|].
  do 4 apply Forall_cons_1 in Hall as [_ Hall].
  by apply Forall_cons_1 in Hall as [Hall _].
Defined.

(** When the active editor shows a document that has a code watcher,
    [runCurrentCell], [runCurrentCellAndAdvance], [runSelectionOrLine],
    [runCurrentCellAndAddBelow] and [addCellBelow] each make exactly one
    delegated call, to that watcher ([runSelectionOrLine] passing the
    active editor on), and return the promise of that call.
    [runToLine] and [runFromLine] pass the line on which the selection
    starts, and call nothing when the editor has no selection. *)
Theorem active_editor_handlers_delegate
    (w : World) (editor : TextEditor.t) (document : TextDocument.t)
    (watcher : ICodeWatcher.t) :
  activeTextEditor w = Some editor →
  TextEditor.document editor = Some document →
  watcherOf w document = Some watcher →
  Forall
    (λ '(handler, method),
       calls (trace (handler w)) = [onCodeWatcher watcher method]
       ∧ completion (handler w)
         = Normal (settles w (onCodeWatcher watcher method)))
    [ (CommandRegistry.runCurrentCell, ICodeWatcher.runCurrentCell);
      (CommandRegistry.runCurrentCellAndAdvance,
       ICodeWatcher.runCurrentCellAndAdvance);
      (CommandRegistry.runSelectionOrLine,
       ICodeWatcher.runSelectionOrLine (Some editor));
      (CommandRegistry.runCurrentCellAndAddBelow,
       ICodeWatcher.runCurrentCellAndAddBelow);
      (CommandRegistry.addCellBelow, ICodeWatcher.addEmptyCellToBottom) ]
  ∧ match TextEditor.selection editor with
    | Some selection =>
        let line := Position.line (Selection.start selection) in
        calls (trace (CommandRegistry.runToLine w))
        = [onCodeWatcher watcher (ICodeWatcher.runToLine line)]
        ∧ calls (trace (CommandRegistry.runFromLine w))
          = [onCodeWatcher watcher (ICodeWatcher.runFromLine line)]
    | None =>
        calls (trace (CommandRegistry.runToLine w)) = []
        ∧ completion (CommandRegistry.runToLine w) = Normal (Fulfilled tt)
        ∧ calls (trace (CommandRegistry.runFromLine w)) = []
        ∧ completion (CommandRegistry.runFromLine w) = Normal (Fulfilled tt)
    end.
Proof.
  intros Heditor Hdocument Hwatcher.
  pose proof (getCurrentCodeWatcher_active w editor document
                Heditor Hdocument) as Hcurrent.
  rewrite Hwatcher in Hcurrent.
  split; [repeat apply Forall_cons_2; [..|apply Forall_nil_2]|];
    unfold CommandRegistry.runCurrentCell,
      CommandRegistry.runCurrentCellAndAdvance,
      CommandRegistry.runSelectionOrLine,
      CommandRegistry.runCurrentCellAndAddBelow, CommandRegistry.runToLine,
      CommandRegistry.runFromLine, CommandRegistry.addCellBelow,
      captureTelemetry, async, trace, mbind, M_bind, reads;
    rewrite ?Hcurrent, ?Heditor; cbn; try done.
  destruct (TextEditor.selection editor); cbn; done.
Qed.

Lemma active_editor_handlers_delegate_witness :
  calls (trace (CommandRegistry.runToLine
                  (cursorOn (TextDocument.mk "a.py" 1) 7%nat 8 3 [])))
  = [onCodeWatcher 7%nat (ICodeWatcher.runToLine 3)].
Proof.
  exact (proj1 (proj2 (active_editor_handlers_delegate
                         (cursorOn (TextDocument.mk "a.py" 1) 7%nat 8 3 [])
                         _ _ _ eq_refl eq_refl eq_refl))).
Defined.

(** ** Handlers that work on the cell under the cursor *)

Lemma find_at_first {A} (f : A → bool) (before after : list A) (x : A) :
  Forall (λ y, f y = false) before → f x = true →
  List.find f (before ++ x :: after) = Some x.
Proof.
  induction 1 as [|y before Hy Hbefore IH]; intros Hx; cbn.
  - by rewrite Hx.
  - rewrite Hy. by apply IH.
Qed.

Lemma find_nowhere {A} (f : A → bool) (l : list A) :
  Forall (λ y, f y = false) l → List.find f l = None.
Proof. induction 1 as [|y l Hy Hl IH]; cbn; [done|]. by rewrite Hy. Qed.

Lemma getCurrentCodeLens_active (w : World) (editor : TextEditor.t)
    (document : TextDocument.t) (watcher : ICodeWatcher.t)
    (selection : Selection.t) :
  activeTextEditor w = Some editor →
  TextEditor.document editor = Some document →
  watcherOf w document = Some watcher →
  TextEditor.selection editor = Some selection →
  CommandRegistry.getCurrentCodeLens w
  = mkRun
      [ Looked (dataScienceCodeLensProvider_getCodeWatcher document);
        Looked (codeWatcher_getCodeLenses watcher) ]
      (Normal
         (List.find
            (λ lens,
               (Position.line (Range.end_ (CodeLens.range lens))
                >=? Position.line (Selection.anchor selection))%Z
               && (Position.line (Range.start (CodeLens.range lens))
                   <=? Position.line (Selection.anchor selection))%Z)
            (codeLensesOf w watcher)))
      [].
Proof.
  intros Heditor Hdocument Hwatcher Hselection.
  unfold CommandRegistry.getCurrentCodeLens, mbind, M_bind.
  rewrite (getCurrentCodeWatcher_active w editor document Heditor Hdocument).
  unfold reads, look. rewrite Heditor, Hwatcher, Hselection. cbn.
  by rewrite find_pure.
Qed.

(** With the active editor on a document that has a code watcher, the
    three cursor commands act on the first code lens whose line range
    contains the line of the selection's anchor:
    [runAllCellsAboveFromCursor] and [runCellAndAllBelowFromCursor]
    pass the watcher the line and character at which that lens starts,
    [debugCurrentCellFromCursor] asks it to debug the current cell.
    When no lens contains the anchor line they call nothing and
    resolve. *)
Theorem cursor_handlers_use_the_lens_at_the_cursor
    (w : World) (editor : TextEditor.t) (document : TextDocument.t)
    (watcher : ICodeWatcher.t) (selection : Selection.t) :
  activeTextEditor w = Some editor →
  TextEditor.document editor = Some document →
  watcherOf w document = Some watcher →
  TextEditor.selection editor = Some selection →
  let atCursor lens :=
    (Position.line (Range.start (CodeLens.range lens))
     ≤ Position.line (Selection.anchor selection)
     ≤ Position.line (Range.end_ (CodeLens.range lens)))%Z in
  (∀ before lens after,
     codeLensesOf w watcher = before ++ lens :: after →
     atCursor lens →
     Forall (λ earlier, ¬ atCursor earlier) before →
     let start := Range.start (CodeLens.range lens) in
     calls (trace (CommandRegistry.runAllCellsAboveFromCursor w))
     = [ onCodeWatcher watcher
           (ICodeWatcher.runAllCellsAbove
              (Position.line start) (Position.character start)) ]
     ∧ calls (trace (CommandRegistry.runCellAndAllBelowFromCursor w))
       = [ onCodeWatcher watcher
             (ICodeWatcher.runCellAndAllBelow
                (Position.line start) (Position.character start)) ]
     ∧ calls (trace (CommandRegistry.debugCurrentCellFromCursor w))
       = [onCodeWatcher watcher ICodeWatcher.debugCurrentCell])
  ∧ (Forall (λ lens, ¬ atCursor lens) (codeLensesOf w watcher) →
     Forall (λ handler : M (Promise unit),
               calls (trace (handler w)) = []
               ∧ completion (handler w) = Normal (Fulfilled tt))
       [ CommandRegistry.runAllCellsAboveFromCursor;
         CommandRegistry.runCellAndAllBelowFromCursor;
         CommandRegistry.debugCurrentCellFromCursor ]).
Proof.
  intros Heditor Hdocument Hwatcher Hselection atCursor.
  pose proof (getCurrentCodeWatcher_active w editor document
                Heditor Hdocument) as Hcurrent.
  rewrite Hwatcher in Hcurrent.
  pose proof (getCurrentCodeLens_active w editor document watcher selection
                Heditor Hdocument Hwatcher Hselection) as Hlens.
  split.
  - intros before lens after Hlenses Hat Hbefore start.
    rewrite Hlenses, (find_at_first _ before after lens) in Hlens.
    + unfold CommandRegistry.runAllCellsAboveFromCursor,
        CommandRegistry.runCellAndAllBelowFromCursor,
        CommandRegistry.debugCurrentCellFromCursor, async, trace, mbind,
        M_bind.
      rewrite Hlens. cbn. rewrite Hcurrent. by cbn.
    + eapply Forall_impl; [exact Hbefore|].
      intros earlier. apply at_cursor_false.
    + by apply at_cursor_true.
  - intros Hnone.
    rewrite find_nowhere in Hlens.
    + repeat apply Forall_cons_2; [..|apply Forall_nil_2];
        unfold CommandRegistry.runAllCellsAboveFromCursor,
          CommandRegistry.runCellAndAllBelowFromCursor,
          CommandRegistry.debugCurrentCellFromCursor, async, trace, mbind,
          M_bind;
        rewrite Hlens; by cbn.
    + eapply Forall_impl; [exact Hnone|].
      intros lens. apply at_cursor_false.
Qed.

Lemma cursor_handlers_use_the_lens_at_the_cursor_witness :
  calls (trace (CommandRegistry.runAllCellsAboveFromCursor
                  (cursorOn (TextDocument.mk "a.py" 1) 7%nat 8 8
                     [lensOver 0 4; lensOver 5 9; lensOver 8 12])))
  = [onCodeWatcher 7%nat (ICodeWatcher.runAllCellsAbove 5 0)].
Proof.
  refine (proj1 (proj1 (cursor_handlers_use_the_lens_at_the_cursor
                          (cursorOn (TextDocument.mk "a.py" 1) 7%nat 8 8
                             [lensOver 0 4; lensOver 5 9; lensOver 8 12])
                          _ _ _ _ eq_refl eq_refl eq_refl eq_refl)
                   [lensOver 0 4] (lensOver 5 9) [lensOver 8 12]
                   eq_refl _ _)).
  - cbn. lia.
  - repeat constructor. cbn. lia.
Defined.

(** ** Handlers that are given a file and a position *)



(** ** What a command returns *)

Lemma calls_app (e1 e2 : list Event) : calls (e1 ++ e2) = calls e1 ++ calls e2.
Proof. apply omap_app. Qed.

Lemma calls_lookups (lookups : list Lookup) : calls (Looked <$> lookups) = [].
Proof. by induction lookups. Qed.

Ltac run_promise_step :=
  match goal with
  | |- context [match settles ?w ?c with _ => _ end] =>
      let H := fresh "Hsettles" in
      destruct (settles w c) as [[]|?] eqn:H
  | _ => run_shape_step
  end.

Ltac member_cases H :=
  repeat (apply elem_of_cons in H as [->|H]; [try done|]);
  try (by apply elem_of_nil in H).

(** Whenever a handler calls a code-watcher method,
    [notebookEditorProvider.createNew] or [startPage.open], that call
    is the only delegated call of the run and the handler's promise
    settles exactly as the promise that call returned: the command
    fails when, and only when, the collaborator does. *)
Theorem delegated_promise_is_the_commands_promise
    (m : Method.t) (args : arguments m) (w : World) (c : Call) :
  c ∈ calls (trace (body m args w)) →
  match c with
  | onCodeWatcher _ _ | notebookEditorProvider_createNew | startPage_open =>
      calls (trace (body m args w)) = [c]
      ∧ completion (body m args w) = Normal (promised (settles w c))
  | _ => True
  end.
Proof.
  destruct m; cbn in args |- *.
  all: repeat match goal with a : (_ * _)%type |- _ => destruct a end.
  all: unfold CommandRegistry.runAllCells, CommandRegistry.runCell,
    CommandRegistry.runCurrentCell, CommandRegistry.runCurrentCellAndAdvance,
    CommandRegistry.runSelectionOrLine, CommandRegistry.runAllCellsAbove,
    CommandRegistry.runCellAndAllBelow,
    CommandRegistry.runAllCellsAboveFromCursor,
    CommandRegistry.runCellAndAllBelowFromCursor, CommandRegistry.runToLine,
    CommandRegistry.runFromLine, CommandRegistry.runFileInteractive,
    CommandRegistry.debugFileInteractive, CommandRegistry.addCellBelow,
    CommandRegistry.runCurrentCellAndAddBelow, CommandRegistry.debugCell,
    CommandRegistry.debugStepOver, CommandRegistry.debugContinue,
    CommandRegistry.debugStop, CommandRegistry.inDebugMode,
    CommandRegistry.debugCurrentCellFromCursor,
    CommandRegistry.createNewNotebook, CommandRegistry.viewJupyterOutput,
    CommandRegistry.exportAsPythonScript, CommandRegistry.exportToHTML,
    CommandRegistry.exportToPDF, CommandRegistry.openStartPage,
    CommandRegistry.reportGatherQuality,
    CommandRegistry.enableLoadingWidgetScriptsFromThirdParty,
    CommandRegistry.export, CommandRegistry.showExportQuickPick,
    CommandRegistry.verifySaved, CommandRegistry.getFileSaveLocation,
    returning, async, captureTelemetry, then_, trace, mbind, M_bind, reads,
    look, call, call_, delegate, CommandRegistry.orElse, await.
  all: repeat run_promise_step.
  all: rewrite <- ?(assoc_L (++)), ?calls_app, ?calls_lookups; cbn.
  all: try (intros Hc; member_cases Hc;
            rewrite ?calls_app, ?calls_lookups; cbn;
            try match goal with H : settles _ _ = _ |- _ => rewrite H end;
            done).
  all: run_prompts; intros Hc; member_cases Hc.
Qed.

Lemma delegated_promise_is_the_commands_promise_witness :
  completion (body Method.createNewNotebook tt (failing [] None))
  = Normal (promised (Rejected (Failure "offline")))
  ∧ completion (body Method.runAllCells "a.py"
                  (failing [TextDocument.mk "a.py" 1] None))
    = Normal (promised (Rejected (Failure "offline"))).
Proof.
  split.
  - exact (proj2 (delegated_promise_is_the_commands_promise
                    Method.createNewNotebook tt (failing [] None)
                    notebookEditorProvider_createNew
                    (list_elem_of_here _ _))).
  - exact (proj2 (delegated_promise_is_the_commands_promise
                    Method.runAllCells "a.py"
                    (failing [TextDocument.mk "a.py" 1] None)
                    (onCodeWatcher 1%nat ICodeWatcher.runAllCells)
                    (list_elem_of_here _ _))).
Defined.

(** ** The export menu *)

(** [showExportQuickPick] shows one quick pick, with the three export
    items and the placeholder [Export As...].  It rejects when the
    quick pick rejects, resolves to [undefined] when the user dismisses
    it, and otherwise resolves to the item of its own list whose label
    equals the label of the picked item, or to [undefined] when the
    picked label is none of [Python Script], [HTML] and [PDF]. *)
Theorem showExportQuickPick_matches_by_label (w : World) :
  let asked :=
    showQuickPick applicationShell
      [ QuickPickItem.mk "Python Script" true;
        QuickPickItem.mk "HTML" false;
        QuickPickItem.mk "PDF" false ]
      {| ignoreFocusOut := true; matchOnDescription := true;
         matchOnDetail := true; placeHolder := "Export As..." |} in
  trace (CommandRegistry.showExportQuickPick w) = [Called asked]
  ∧ match
      pickedItem w asked, completion (CommandRegistry.showExportQuickPick w)
    with
    | Rejected e, result => result = Normal (Rejected e)
    | Fulfilled None, result => result = Normal (Fulfilled None)
    | Fulfilled (Some chosen), Normal (Fulfilled (Some item)) =>
        item ∈ CommandRegistry.getExportQuickPickItems
        ∧ label item = QuickPickItem.label chosen
    | Fulfilled (Some chosen), Normal (Fulfilled None) =>
        QuickPickItem.label chosen
        ∉ ["Python Script"; "HTML"; "PDF"]
    | Fulfilled (Some chosen), _ => False
    end.
Proof.
  intros asked.
  unfold CommandRegistry.showExportQuickPick, async, trace, mbind, M_bind,
    call, await.
  change (showQuickPick _ _ _) with asked.
  destruct (pickedItem w asked) as [[chosen|]|e]; cbn; try done.
  split; [done|].
  repeat case_bool_decide; cbn.
  1-3: split; [repeat constructor|done].
  intros Hin.
  repeat (apply elem_of_cons in Hin as [Hin|Hin]; [congruence|]).
  by apply elem_of_nil in Hin.
Qed.

Lemma verifySaved_run (w : World) :
  let prompt :=
    showInformationMessage applicationShell
      (localized w DataScience.exportSaveFilePrompt)
      [ localized w DataScience.exportSaveFileYes;
        localized w DataScience.exportSaveFileCancel ] in
  let dialog :=
    showSaveDialog applicationShell
      {| defaultUri := INotebookEditor.file <$> notebookActiveEditor w;
         saveLabel := "";
         filters := [("Juypter Notebooks", ["ipynb"])] |} in
  let asks :=
    match notebookActiveEditor w with
    | Some notebook =>
        negb (INotebookEditor.isUntitled notebook)
        && INotebookEditor.isDirty notebook
    | None => false
    end in
  let accepts :=
    match answered w prompt with
    | Fulfilled (Some choice) =>
        bool_decide (choice = localized w DataScience.exportSaveFileYes)
    | _ => false
    end in
  CommandRegistry.verifySaved w
  = mkRun (if asks then [Called prompt] else []) (Normal tt)
          (if asks && accepts then [Called dialog] else []).
Proof.
  intros prompt dialog asks accepts. subst asks accepts.
  unfold CommandRegistry.verifySaved, CommandRegistry.getFileSaveLocation,
    then_, mbind, M_bind, reads, call.
  destruct (notebookActiveEditor w) as [[file [|] [|]]|] eqn:Hnotebook;
    cbn; try done.
  destruct (answered w _) as [[choice|]|e]; cbn; try done.
  rewrite (bool_decide_ext
             (Some choice = Some (localized w DataScience.exportSaveFileYes))
             (choice = localized w DataScience.exportSaveFileYes))
    by (split; [by intros [=]|by intros ->]).
  case_bool_decide; cbn; [|done].
  destruct (savedTo w _); cbn; by rewrite Hnotebook.
Qed.

(** [verifySaved] asks whether to save exactly when a notebook editor
    is active, is not untitled and is dirty, offering the localized yes
    and cancel buttons; it goes on to the save dialog exactly when, in
    addition, that prompt fulfils with the yes button.  With no active
    notebook editor it calls nobody; it never throws. *)
Theorem verifySaved_asks_only_for_a_dirty_saved_notebook (w : World) :
  let prompt :=
    showInformationMessage applicationShell
      (localized w DataScience.exportSaveFilePrompt)
      [ localized w DataScience.exportSaveFileYes;
        localized w DataScience.exportSaveFileCancel ] in
  let dialog :=
    showSaveDialog applicationShell
      {| defaultUri := INotebookEditor.file <$> notebookActiveEditor w;
         saveLabel := "";
         filters := [("Juypter Notebooks", ["ipynb"])] |} in
  let dirty :=
    ∃ notebook,
      notebookActiveEditor w = Some notebook
      ∧ INotebookEditor.isUntitled notebook = false
      ∧ INotebookEditor.isDirty notebook = true in
  let accepted :=
    answered w prompt
    = Fulfilled (Some (localized w DataScience.exportSaveFileYes)) in
  completion (CommandRegistry.verifySaved w) = Normal tt
  ∧ (prompt ∈ calls (trace (CommandRegistry.verifySaved w)) ↔ dirty)
  ∧ (dialog ∈ calls (trace (CommandRegistry.verifySaved w))
     ↔ dirty ∧ accepted)
  ∧ ∀ c, c ∈ calls (trace (CommandRegistry.verifySaved w)) →
         c = prompt ∨ c = dialog.
Proof.
  intros prompt dialog dirty accepted.
  rewrite (verifySaved_run w). fold prompt dialog. unfold trace. cbn.
  assert (match notebookActiveEditor w with
          | Some notebook =>
              negb (INotebookEditor.isUntitled notebook)
              && INotebookEditor.isDirty notebook
          | None => false
          end = true ↔ dirty) as Hasks.
  { subst dirty. destruct (notebookActiveEditor w) as [[file [|] [|]]|]; cbn;
      split; try done; try (intros (? & [=] & ? & ?); by simplify_eq/=).
    intros _. by eexists. }
  assert (match answered w prompt with
          | Fulfilled (Some choice) =>
              bool_decide (choice = localized w DataScience.exportSaveFileYes)
          | _ => false
          end = true ↔ accepted) as Haccepts.
  { subst accepted. destruct (answered w prompt) as [[choice|]|e];
      try (split; done).
    rewrite bool_decide_eq_true. split; congruence. }
  destruct (match notebookActiveEditor w with Some _ => _ | None => _ end);
    destruct (match answered w prompt with Fulfilled _ => _ | _ => _ end);
    cbn; (split; [done|]).
  all: assert (dialog ≠ prompt) by done.
  all: repeat split; intros;
    rewrite ?elem_of_cons, ?elem_of_nil in *;
    intuition (try discriminate; try congruence).
Qed.

(** [export] shows the export quick pick and, once that fulfils, goes
    through [verifySaved], whichever item was picked and also when the
    quick pick was dismissed; the picked item's handler adds nothing.
    When the quick pick rejects nothing more happens.  [export] itself
    returns normally in every case. *)
Theorem export_checks_saving_whatever_is_picked (w : World) :
  let asked :=
    showQuickPick applicationShell
      [ QuickPickItem.mk "Python Script" true;
        QuickPickItem.mk "HTML" false;
        QuickPickItem.mk "PDF" false ]
      {| ignoreFocusOut := true; matchOnDescription := true;
         matchOnDetail := true; placeHolder := "Export As..." |} in
  CommandRegistry.export w
  = mkRun [Called asked] (Normal tt)
      match pickedItem w asked with
      | Fulfilled _ => trace (CommandRegistry.verifySaved w)
      | Rejected _ => []
      end.
Proof.
  intros asked.
  unfold CommandRegistry.export, CommandRegistry.showExportQuickPick, async,
    then_, mbind, M_bind, call, await.
  change (showQuickPick _ _ _) with asked.
  destruct (pickedItem w asked) as [[chosen|]|e];
    cbn -[CommandRegistry.verifySaved]; [| |done];
    rewrite (verifySaved_run w); unfold trace; cbn;
    repeat case_bool_decide; cbn; by rewrite ?app_nil_r.
Qed.

(** ** Where a command can fail *)




(** ** Settings are left alone *)

Lemma settingsAfter_lookups (w : World) (lookups : list Lookup)
    (events : list Event) (σ : gmap string (list string)) :
  foldl (applied w) σ ((Looked <$> lookups) ++ events)
  = foldl (applied w) σ events.
Proof.
  rewrite foldl_app. f_equal.
  induction lookups as [|l lookups IH]; [done|]. exact IH.
Qed.

(** [enableLoadingWidgetScriptsFromThirdParty] is the only handler that
    changes a setting: whatever the arguments and the state of the
    collaborators, no other handler bound by [register()] ever calls
    [configService.updateSetting], so each leaves the settings exactly
    as they were. *)
Theorem only_one_handler_changes_settings
    (m : Method.t) (args : arguments m) (w : World)
    (σ : gmap string (list string)) :
  m ≠ Method.enableLoadingWidgetScriptsFromThirdParty →
  Forall (λ c, ∀ setting value resource target,
                 c ≠ configService_updateSetting setting value resource target)
         (calls (trace (body m args w)))
  ∧ settingsAfter w (trace (body m args w)) σ = σ.
Proof.
  intros Hm. destruct m; try done; clear Hm; cbn in args |- *; split.
  all: repeat match goal with a : (_ * _)%type |- _ => destruct a end.
  all: unfold CommandRegistry.runAllCells, CommandRegistry.runCell,
    CommandRegistry.runCurrentCell, CommandRegistry.runCurrentCellAndAdvance,
    CommandRegistry.runSelectionOrLine, CommandRegistry.runAllCellsAbove,
    CommandRegistry.runCellAndAllBelow,
    CommandRegistry.runAllCellsAboveFromCursor,
    CommandRegistry.runCellAndAllBelowFromCursor, CommandRegistry.runToLine,
    CommandRegistry.runFromLine, CommandRegistry.runFileInteractive,
    CommandRegistry.debugFileInteractive, CommandRegistry.addCellBelow,
    CommandRegistry.runCurrentCellAndAddBelow, CommandRegistry.debugCell,
    CommandRegistry.debugStepOver, CommandRegistry.debugContinue,
    CommandRegistry.debugStop, CommandRegistry.inDebugMode,
    CommandRegistry.debugCurrentCellFromCursor,
    CommandRegistry.createNewNotebook, CommandRegistry.viewJupyterOutput,
    CommandRegistry.exportAsPythonScript, CommandRegistry.exportToHTML,
    CommandRegistry.exportToPDF, CommandRegistry.openStartPage,
    CommandRegistry.reportGatherQuality,
    CommandRegistry.export, CommandRegistry.showExportQuickPick,
    CommandRegistry.verifySaved, CommandRegistry.getFileSaveLocation,
    returning, async, captureTelemetry, then_, trace, mbind, M_bind, reads,
    look, call, call_, delegate, CommandRegistry.orElse, await.
  all: unfold settingsAfter; repeat run_shape_step.
  all: rewrite <- ?(assoc_L (++)), ?settingsAfter_lookups,
         ?calls_app, ?calls_lookups; cbn; try done.
  all: try (repeat constructor; done).
  all: run_prompts; try done; repeat constructor; done.
Qed.

Lemma only_one_handler_changes_settings_witness :
  settingsAfter exporting (trace (body Method.export tt exporting))
    {[ "dataScience.widgetScriptSources" := ["unpkg.com"] ]}
  = {[ "dataScience.widgetScriptSources" := ["unpkg.com"] ]}.
Proof.
  apply (only_one_handler_changes_settings Method.export tt exporting).
  discriminate.
Defined.
